(** * Plugin event handlers of the cucumber preprocessor

    A shallow embedding of [src/lib/plugin-event-handlers.ts]: the envelope
    data model, the eight-variant spec run state, the handlers as functions
    in a state-and-exception monad over the module-level [state] cell and
    the outside world (files, live formatter streams, console), and the
    properties the specification states about them. *)

From Stdlib Require Import Strings.String Strings.Ascii Strings.Byte NArith ZArith Bool Lia.
From stdpp Require Import base option list strings gmap.

Local Open Scope string_scope.
Local Open Scope list_scope.

(** ** Strings and buffers of the host language *)

(** [String.prototype.endsWith]. *)
Definition endsWith (s suffix : string) : bool :=
  let n := String.length s in
  let k := String.length suffix in
  (k <=? n)%nat && String.eqb (substring (n - k) k s) suffix.

(** [String.prototype.startsWith]. *)
Definition startsWith (s pre : string) : bool := String.prefix pre s.

(** [String.prototype.replace] with a string pattern and a replacement that
    holds no [$]: the first occurrence of the pattern is replaced, a string
    without the pattern is returned as it is. *)
Definition replace (s pattern replacement : string) : string :=
  match index 0 pattern s with
  | Some i =>
      substring 0 i s +:+ replacement +:+
      substring (i + String.length pattern)
                (String.length s - (i + String.length pattern)) s
  | None => s
  end.

(** [Buffer.prototype.toString("base64")]: RFC 4648 base64 with padding. *)
Module Base64.

Definition alphabet : string :=
  "ABCDEFGHIJKLMNOPQRSTUVWXYZabcdefghijklmnopqrstuvwxyz0123456789+/".

Definition digit (n : N) : ascii :=
  match get (N.to_nat (N.land n 63)) alphabet with
  | Some c => c
  | None => "="%char
  end.

Definition pad : ascii := "="%char.

Fixpoint encode (bs : list byte) : string :=
  match bs with
  | [] => EmptyString
  | [a] =>
      let n := N.shiftl (Byte.to_N a) 16 in
      String (digit (N.shiftr n 18)) (String (digit (N.shiftr n 12))
        (String pad (String pad EmptyString)))
  | [a; b] =>
      let n := N.lor (N.shiftl (Byte.to_N a) 16) (N.shiftl (Byte.to_N b) 8) in
      String (digit (N.shiftr n 18)) (String (digit (N.shiftr n 12))
        (String (digit (N.shiftr n 6)) (String pad EmptyString)))
  | a :: b :: c :: rest =>
      let n := N.lor (N.lor (N.shiftl (Byte.to_N a) 16)
                            (N.shiftl (Byte.to_N b) 8)) (Byte.to_N c) in
      String (digit (N.shiftr n 18)) (String (digit (N.shiftr n 12))
        (String (digit (N.shiftr n 6)) (String (digit n) (encode rest))))
  end.

End Base64.

(** ** Envelopes ([@cucumber/messages]) *)

Record Timestamp := { seconds : Z; nanos : Z }.

Inductive AttachmentContentEncoding := IDENTITY | BASE64.

Record Attachment := {
  att_testCaseStartedId : string;
  att_testStepId : string;
  att_body : string;
  att_mediaType : string;
  att_contentEncoding : AttachmentContentEncoding;
}.

Record GherkinDocument := {
  gd_uri : option string;
  gd_comments : list string;
}.

Record PickleStep := {
  ps_id : string;
  ps_text : string;
}.

Record Pickle := {
  pk_id : string;
  pk_uri : string;
  pk_name : string;
  pk_steps : list PickleStep;
}.

Record TestStep := {
  ts_id : string;
  ts_pickleStepId : option string;
  ts_hookId : option string;
}.

Record TestCase := {
  tc_id : string;
  tc_pickleId : string;
  tc_testSteps : list TestStep;
}.

Record TestCaseStarted := {
  tcs_id : string;
  tcs_testCaseId : string;
  tcs_attempt : nat;
  tcs_timestamp : Timestamp;
}.

Record TestStepStarted := {
  tss_testCaseStartedId : string;
  tss_testStepId : string;
  tss_timestamp : Timestamp;
}.

Inductive TestStepResultStatus :=
  UNKNOWN | PASSED | SKIPPED | PENDING | UNDEFINED | AMBIGUOUS | FAILED.

Record TestStepResult := {
  tsr_status : TestStepResultStatus;
  tsr_message : option string;
}.

Record TestStepFinished := {
  tsf_testCaseStartedId : string;
  tsf_testStepId : string;
  tsf_testStepResult : TestStepResult;
  tsf_timestamp : Timestamp;
}.

Record TestCaseFinished := {
  tcf_testCaseStartedId : string;
  tcf_timestamp : Timestamp;
  tcf_willBeRetried : bool;
}.

Record Meta := {
  meta_protocolVersion : string;
  meta_implementation_version : string;
  meta_implementation_name : string;
  meta_cpu_name : string;
  meta_os_name : string;
  meta_os_version : string;
  meta_runtime_name : string;
  meta_runtime_version : string;
  meta_ci : option string;
}.

Record TestRunStarted := { trs_timestamp : Timestamp }.

(** [success] is a field of the library's [TestRunFinished]; the handlers
    never set it. *)
Record TestRunFinished := {
  trf_timestamp : Timestamp;
  trf_success : option bool;
}.

(** An envelope is an object whose payload fields are all optional. *)
Record Envelope := {
  attachment : option Attachment;
  gherkinDocument : option GherkinDocument;
  pickle : option Pickle;
  testCase : option TestCase;
  testCaseStarted : option TestCaseStarted;
  testStepStarted : option TestStepStarted;
  testStepFinished : option TestStepFinished;
  testCaseFinished : option TestCaseFinished;
  meta : option Meta;
  testRunStarted : option TestRunStarted;
  testRunFinished : option TestRunFinished;
}.

(** The object literals [{ testCaseStarted: data }] and the like. *)
Definition noPayload : Envelope :=
  {| attachment := None; gherkinDocument := None; pickle := None;
     testCase := None; testCaseStarted := None; testStepStarted := None;
     testStepFinished := None; testCaseFinished := None; meta := None;
     testRunStarted := None; testRunFinished := None |}.

Definition attachmentEnvelope (a : Attachment) : Envelope :=
  {| attachment := Some a; gherkinDocument := None; pickle := None;
     testCase := None; testCaseStarted := None; testStepStarted := None;
     testStepFinished := None; testCaseFinished := None; meta := None;
     testRunStarted := None; testRunFinished := None |}.

Definition gherkinDocumentEnvelope (d : GherkinDocument) : Envelope :=
  {| attachment := None; gherkinDocument := Some d; pickle := None;
     testCase := None; testCaseStarted := None; testStepStarted := None;
     testStepFinished := None; testCaseFinished := None; meta := None;
     testRunStarted := None; testRunFinished := None |}.

Definition pickleEnvelope (p : Pickle) : Envelope :=
  {| attachment := None; gherkinDocument := None; pickle := Some p;
     testCase := None; testCaseStarted := None; testStepStarted := None;
     testStepFinished := None; testCaseFinished := None; meta := None;
     testRunStarted := None; testRunFinished := None |}.

Definition testCaseEnvelope (t : TestCase) : Envelope :=
  {| attachment := None; gherkinDocument := None; pickle := None;
     testCase := Some t; testCaseStarted := None; testStepStarted := None;
     testStepFinished := None; testCaseFinished := None; meta := None;
     testRunStarted := None; testRunFinished := None |}.

Definition testCaseStartedEnvelope (d : TestCaseStarted) : Envelope :=
  {| attachment := None; gherkinDocument := None; pickle := None;
     testCase := None; testCaseStarted := Some d; testStepStarted := None;
     testStepFinished := None; testCaseFinished := None; meta := None;
     testRunStarted := None; testRunFinished := None |}.

Definition testStepStartedEnvelope (d : TestStepStarted) : Envelope :=
  {| attachment := None; gherkinDocument := None; pickle := None;
     testCase := None; testCaseStarted := None; testStepStarted := Some d;
     testStepFinished := None; testCaseFinished := None; meta := None;
     testRunStarted := None; testRunFinished := None |}.

Definition testStepFinishedEnvelope (d : TestStepFinished) : Envelope :=
  {| attachment := None; gherkinDocument := None; pickle := None;
     testCase := None; testCaseStarted := None; testStepStarted := None;
     testStepFinished := Some d; testCaseFinished := None; meta := None;
     testRunStarted := None; testRunFinished := None |}.

Definition testCaseFinishedEnvelope (d : TestCaseFinished) : Envelope :=
  {| attachment := None; gherkinDocument := None; pickle := None;
     testCase := None; testCaseStarted := None; testStepStarted := None;
     testStepFinished := None; testCaseFinished := Some d; meta := None;
     testRunStarted := None; testRunFinished := None |}.

Definition metaEnvelope (d : Meta) : Envelope :=
  {| attachment := None; gherkinDocument := None; pickle := None;
     testCase := None; testCaseStarted := None; testStepStarted := None;
     testStepFinished := None; testCaseFinished := None; meta := Some d;
     testRunStarted := None; testRunFinished := None |}.

Definition testRunStartedEnvelope (d : TestRunStarted) : Envelope :=
  {| attachment := None; gherkinDocument := None; pickle := None;
     testCase := None; testCaseStarted := None; testStepStarted := None;
     testStepFinished := None; testCaseFinished := None; meta := None;
     testRunStarted := Some d; testRunFinished := None |}.

Definition testRunFinishedEnvelope (d : TestRunFinished) : Envelope :=
  {| attachment := None; gherkinDocument := None; pickle := None;
     testCase := None; testCaseStarted := None; testStepStarted := None;
     testStepFinished := None; testCaseFinished := None; meta := None;
     testRunStarted := None; testRunFinished := Some d |}.

(** ** Array helpers *)

(** [Array.prototype.findLastIndex]: the index of the last element that
    satisfies the predicate, [-1] when there is none. *)
Fixpoint findLastIndex_from {A} (p : A -> bool) (l : list A) (i : Z) : Z :=
  match l with
  | [] => (-1)%Z
  | x :: l' =>
      let r := findLastIndex_from p l' (i + 1)%Z in
      if (r =? -1)%Z then (if p x then i else (-1)%Z) else r
  end.

Definition findLastIndex {A} (p : A -> bool) (l : list A) : Z :=
  findLastIndex_from p l 0%Z.

(** [Array.prototype.slice(0, i)] for an index that is not negative. *)
Definition slice0 {A} (l : list A) (i : Z) : list A := take (Z.to_nat i) l.

(** [array.map(f).filter(notNull).find(p)]: [omap] keeps the payloads that
    are present, [List.find] returns the first that satisfies [p]. *)
Definition findPayload {A B} (f : A -> option B) (p : B -> bool)
    (l : list A) : option B :=
  List.find p (omap f l).

(** ** Configuration and handler arguments *)

Record OutputConfig := { enabled : bool; output : string }.

(** The configuration that [resolve(config, config.env, "/")] yields;
    resolution itself is memoized and external. *)
Record IPreprocessorConfiguration := {
  cfg_messages : OutputConfig;
  cfg_json : OutputConfig;
  cfg_html : OutputConfig;
  cfg_pretty_enabled : bool;
}.

Record PluginConfigOptions := {
  isTextTerminal : bool;
  projectRoot : string;
  resolve : IPreprocessorConfiguration;
}.

Record Spec := { spec_name : string; spec_relative : string }.

Record TestResult := { displayError : option string }.

Record RunResult := { tests : list TestResult }.

Record ScreenshotDetails := {
  sd_path : string;
  sd_takenAt : string;
  sd_size : N;
}.

Record ITaskCreateStringAttachment := {
  csa_data : string;
  csa_mediaType : string;
  csa_encoding : AttachmentContentEncoding;
}.

(** What a caller can pass as [data] to [attach]. *)
Inductive AttachData :=
| DataString (s : string)
| DataBuffer (bytes : list byte)
| DataOther.

(** The argument of the [onAfterStep] callback, [attach] apart. *)
Record AfterStepOptions := {
  aso_result : TestStepResult;
  aso_pickle : Pickle;
  aso_pickleStep : PickleStep;
  aso_gherkinDocument : GherkinDocument;
  aso_testCaseStartedId : string;
  aso_testStepId : string;
}.

(** A callback is modelled by the calls of [attach] it makes, in order. A
    callback that throws an error of its own, or that catches one of
    [attach], is outside this model. *)
Definition OnAfterStep : Type :=
  AfterStepOptions -> list (AttachData * option string).

(** ** The spec run state *)

(** A live formatter channel (the broadcaster and the writable it feeds are
    created together) is referenced by its index in the world's channels. *)
Inductive PrettyState :=
| PrettyDisabled
| PrettyEnabled (channel : nat).

Inductive State :=
| StateInitial
| StateBeforeSpec (pretty : PrettyState)
| StateReceivedSpecEnvelopes (pretty : PrettyState) (messages : list Envelope)
| StateTestStarted (pretty : PrettyState) (messages : list Envelope)
    (testCaseStartedId : string)
| StateStepStarted (pretty : PrettyState) (messages : list Envelope)
    (testCaseStartedId : string) (testStepStartedId : string)
| StateStepFinished (pretty : PrettyState) (messages : list Envelope)
    (testCaseStartedId : string)
| StateTestFinished (pretty : PrettyState) (messages : list Envelope)
| StateAfterSpec.

(** The discriminant [state.state]. *)
Definition state_name (s : State) : string :=
  match s with
  | StateInitial => "initial"
  | StateBeforeSpec _ => "before-spec"
  | StateReceivedSpecEnvelopes _ _ => "received-envelopes"
  | StateTestStarted _ _ _ => "test-started"
  | StateStepStarted _ _ _ _ => "step-started"
  | StateStepFinished _ _ _ => "step-finished"
  | StateTestFinished _ _ => "test-finished"
  | StateAfterSpec => "after-spec"
  end.

(** ["messages" in state] and [state.messages]. *)
Definition state_messages (s : State) : option (list Envelope) :=
  match s with
  | StateReceivedSpecEnvelopes _ m | StateTestStarted _ m _
  | StateStepStarted _ m _ _ | StateStepFinished _ m _
  | StateTestFinished _ m => Some m
  | StateInitial | StateBeforeSpec _ | StateAfterSpec => None
  end.

(** ["pretty" in state] and [state.pretty]. *)
Definition state_pretty (s : State) : option PrettyState :=
  match s with
  | StateBeforeSpec p | StateReceivedSpecEnvelopes p _ | StateTestStarted p _ _
  | StateStepStarted p _ _ _ | StateStepFinished p _ _
  | StateTestFinished p _ => Some p
  | StateInitial | StateAfterSpec => None
  end.

(** ** The world outside the state cell *)

(** The content of a text file. [Json e] stands for [JSON.stringify(e)],
    which holds no line break; [Raw] is the output of a report formatter. *)
Inductive chunk :=
| Json (e : Envelope)
| Newline
| Raw (s : string).

(** [array.map(JSON.stringify).join("\n")]. *)
Fixpoint joinLines (l : list Envelope) : list chunk :=
  match l with
  | [] => []
  | [e] => [Json e]
  | e :: l' => Json e :: Newline :: joinLines l'
  end.

Record Channel := { received : list Envelope; ended : bool }.

Record Host := {
  os_arch : string;
  os_platform : string;
  os_release : string;
  node_version : string;
  ci_environment : option string;
}.

(** Text files (the message log and the reports) and binary files (the
    screenshots) are kept in two maps; directories are not modelled. *)
Record World := {
  files : gmap string (list chunk);
  screenshots : gmap string (list byte);
  channels : list Channel;
  console : list string;
  clock : Timestamp;
  host : Host;
}.

Record Machine := { state : State; world : World }.

(** ** Errors and the handler monad *)

Inductive error :=
| CypressCucumberError (message : string)
| Error (message : string)
| SyntaxError
| TypeError.

Inductive Result (A : Type) :=
| Ok (a : A)
| Err (e : error).
Arguments Ok {A} a.
Arguments Err {A} e.

Definition bindResult {A B} (r : Result A) (k : A -> Result B) : Result B :=
  match r with
  | Ok a => k a
  | Err e => Err e
  end.

(** A handler reads and writes the machine and returns or throws; what it
    did before it threw stays done. *)
Definition M (A : Type) : Type := Machine -> Result A * Machine.

Definition ret {A} (a : A) : M A := fun m => (Ok a, m).

Definition throw {A} (e : error) : M A := fun m => (Err e, m).

Definition bind {A B} (c : M A) (k : A -> M B) : M B :=
  fun m =>
    match c m with
    | (Ok a, m') => k a m'
    | (Err e, m') => (Err e, m')
    end.

Declare Scope handler_scope.
Delimit Scope handler_scope with handler.
Notation "'let*' x ':=' c 'in' k" := (bind c (fun x => k))
  (at level 10, x name, c at level 100, k at level 200) : handler_scope.
Notation "c '>>' k" := (bind c (fun _ => k))
  (at level 90, right associativity) : handler_scope.
Notation "'let?' x ':=' r 'in' k" := (bindResult r (fun x => k))
  (at level 10, x name, r at level 100, k at level 200) : handler_scope.
Local Open Scope handler_scope.

Definition get_state : M State := fun m => (Ok (state m), m).

Definition set_state (s : State) : M unit :=
  fun m => (Ok tt, {| state := s; world := world m |}).

Definition get_world : M World := fun m => (Ok (world m), m).

Definition set_world (w : World) : M unit :=
  fun m => (Ok tt, {| state := state m; world := w |}).

Definition liftResult {A} (r : Result A) : M A := fun m => (r, m).

(** [for (const x of l) await f(x)]. *)
Fixpoint forEach {A} (f : A -> M bool) (l : list A) : M unit :=
  match l with
  | [] => ret tt
  | x :: l' => f x >> forEach f l'
  end.

(** *** File system *)

Definition set_files (w : World) (f : gmap string (list chunk)) : World :=
  {| files := f; screenshots := screenshots w; channels := channels w;
     console := console w; clock := clock w; host := host w |}.

(** [fs.rm(path, { force: true })]. *)
Definition fs_rm (path : string) : M unit :=
  let* w := get_world in set_world (set_files w (delete path (files w))).

(** [fs.writeFile(path, content)]. *)
Definition fs_writeFile (path : string) (content : list chunk) : M unit :=
  let* w := get_world in set_world (set_files w (<[path := content]> (files w))).

(** [fs.writeFile(path, content, { flag: "a" })]: a missing file is created. *)
Definition fs_appendFile (path : string) (content : list chunk) : M unit :=
  let* w := get_world in
  set_world (set_files w
    (<[path := default [] (files w !! path) ++ content]> (files w))).

(** [fs.access(path, F_OK)] succeeds. *)
Definition fs_exists (path : string) : M bool :=
  let* w := get_world in ret (bool_decide (is_Some (files w !! path))).

(** *** Live formatter channels and console *)

Definition set_channels (w : World) (c : list Channel) : World :=
  {| files := files w; screenshots := screenshots w; channels := c;
     console := console w; clock := clock w; host := host w |}.

(** [createPrettyStream()] and [createPrettyFormatter(...)] on it. *)
Definition createPretty : M nat :=
  let* w := get_world in
  set_world (set_channels w (channels w ++ [{| received := []; ended := false |}]))
  >> ret (length (channels w)).

(** [broadcaster.emit("envelope", message)]: the formatter takes the
    envelope. A formatter that throws on an envelope is outside this model;
    what is proved of emitting handlers is about runs in which it does
    not. *)
Definition emit (channel : nat) (message : Envelope) : M unit :=
  let* w := get_world in
  set_world (set_channels w
    (alter (fun c => {| received := received c ++ [message]; ended := ended c |})
       channel (channels w))).

Fixpoint emitAll (channel : nat) (l : list Envelope) : M unit :=
  match l with
  | [] => ret tt
  | message :: l' => emit channel message >> emitAll channel l'
  end.

(** [if (pretty.enabled) pretty.broadcaster.emit("envelope", message)]. *)
Definition emitIfEnabled (pretty : PrettyState) (message : Envelope) : M unit :=
  match pretty with
  | PrettyEnabled channel => emit channel message
  | PrettyDisabled => ret tt
  end.

(** [end(writable)]. *)
Definition endStream (channel : nat) : M unit :=
  let* w := get_world in
  set_world (set_channels w
    (alter (fun c => {| received := received c; ended := true |})
       channel (channels w))).

(** [console.log(line)]. *)
Definition console_log (line : string) : M unit :=
  let* w := get_world in
  set_world {| files := files w; screenshots := screenshots w;
               channels := channels w; console := console w ++ [line];
               clock := clock w; host := host w |}.

(** [createTimestamp()] reads the clock. *)
Definition createTimestamp : M Timestamp :=
  let* w := get_world in ret (clock w).

(** [fs.writeFile(path, data)] with a [data] that may be undefined: the
    check of the argument fails before the file is opened. *)
Definition fs_writeFileData (path : string) (data : option string) : M unit :=
  match data with
  | Some text => fs_writeFile path [Raw text]
  | None => throw TypeError
  end.

(** [fs.readFile(path)] of a text file. *)
Definition fs_readFile (path : string) : M (list chunk) :=
  let* w := get_world in
  match files w !! path with
  | Some content => ret content
  | None => throw (Error "ENOENT")
  end.

(** *** Reading the log back: [toString().trim().split("\n").map(JSON.parse)] *)

Fixpoint dropNewlines (l : list chunk) : list chunk :=
  match l with
  | Newline :: l' => dropNewlines l'
  | _ => l
  end.

Definition trim (l : list chunk) : list chunk :=
  rev (dropNewlines (rev (dropNewlines l))).

Fixpoint splitLines (l : list chunk) : list (list chunk) :=
  match l with
  | [] => [[]]
  | Newline :: l' => [] :: splitLines l'
  | c :: l' =>
      match splitLines l' with
      | line :: lines => (c :: line) :: lines
      | [] => [[c]]
      end
  end.

Definition JSON_parse (line : list chunk) : Result Envelope :=
  match line with
  | [Json e] => Ok e
  | _ => Err SyntaxError
  end.

Fixpoint parseAll (lines : list (list chunk)) : Result (list Envelope) :=
  match lines with
  | [] => Ok []
  | line :: lines' =>
      match JSON_parse line with
      | Ok e =>
          match parseAll lines' with
          | Ok l => Ok (e :: l)
          | Err x => Err x
          end
      | Err x => Err x
      end
  end.

(** ** The handlers *)

(** What the handlers import from modules outside [src/]: constants,
    helpers and the external formatters. [htmlPipeline] is the parsing stage
    composed with the html stream. *)
Class Imports := {
  homepage : string;
  createError : string -> error;
  HOOK_FAILURE_EXPR : string -> bool;
  ensureIsAbsolute : string -> string -> string;
  messages_version : string;
  packageVersion : string;
  createJsonFormatter : list Envelope -> option string;
  htmlPipeline : list chunk -> Result string;
}.

Section Handlers.

Context {imports : Imports}.

Definition isFeature (spec : Spec) : bool := endsWith (spec_name spec) ".feature".

Definition createStateError (stateHandler currentState : string) : error :=
  CypressCucumberError
    ("Unexpected state in " +:+ stateHandler +:+ ": " +:+ currentState +:+
     ". This almost always means that you or some other plugin, are overwriting this plugin's event handlers. For more information & workarounds, see https://github.com/badeball/cypress-cucumber-preprocessor/blob/master/docs/event-handlers.md (if neither workaround work, please report at " +:+
     homepage +:+ ")").

(** [assertAndReturn(value, message)]: an absent value (null or undefined)
    fails with [createError(message)]. *)
Definition assertAndReturn {A} (value : option A) (message : string)
    : Result A :=
  match value with
  | Some v => Ok v
  | None => Err (createError message)
  end.

(** [assert(value, message)] fails on a value that is null or undefined
    and on no other: [None] stands for these two. The handlers call it with
    booleans, also through [assertIsString], and a boolean is neither. *)
Definition assert {A} (value : option A) (message : string) : Result unit :=
  match value with
  | Some _ => Ok tt
  | None => Err (createError message)
  end.

(** [assertIsString(value, message)]: [assert] on the boolean
    [typeof value === "string"]. *)
Definition assertIsString (value : option string) (message : string)
    : Result unit :=
  assert (Some (bool_decide (is_Some value))) message.

Definition messagesPath (config : PluginConfigOptions) : string :=
  ensureIsAbsolute (projectRoot config) (output (cfg_messages (resolve config))).

Definition jsonPath (config : PluginConfigOptions) : string :=
  ensureIsAbsolute (projectRoot config) (output (cfg_json (resolve config))).

Definition htmlPath (config : PluginConfigOptions) : string :=
  ensureIsAbsolute (projectRoot config) (output (cfg_html (resolve config))).

Definition createMeta (h : Host) : Meta :=
  {| meta_protocolVersion := messages_version;
     meta_implementation_version := packageVersion;
     meta_implementation_name := "@badeball/cypress-cucumber-preprocessor";
     meta_cpu_name := os_arch h;
     meta_os_name := os_platform h;
     meta_os_version := os_release h;
     meta_runtime_name := "node.js";
     meta_runtime_version := node_version h;
     meta_ci := ci_environment h |}.

Definition beforeRunHandler (config : PluginConfigOptions) : M unit :=
  if negb (isTextTerminal config) then ret tt else
  let preprocessor := resolve config in
  if negb (enabled (cfg_messages preprocessor)) then ret tt else
  fs_rm (messagesPath config) >>
  let* w := get_world in
  let meta := metaEnvelope (createMeta (host w)) in
  let* timestamp := createTimestamp in
  let testRunStarted :=
    testRunStartedEnvelope {| trs_timestamp := timestamp |} in
  fs_writeFile (messagesPath config)
    [Json meta; Newline; Json testRunStarted; Newline].

(** The html report streams the log through a parsing stage and the html
    stream into the output file: one read, then one write. *)
Definition afterRunHandler (config : PluginConfigOptions) : M unit :=
  if negb (isTextTerminal config) then ret tt else
  let preprocessor := resolve config in
  if negb (enabled (cfg_messages preprocessor)) &&
     negb (enabled (cfg_json preprocessor)) &&
     negb (enabled (cfg_html preprocessor))
  then ret tt else
  let* accessible := fs_exists (messagesPath config) in
  if negb accessible then ret tt else
  (if enabled (cfg_messages preprocessor) then
     let* timestamp := createTimestamp in
     let testRunFinished :=
       testRunFinishedEnvelope
         {| trf_timestamp := timestamp; trf_success := None |} in
     fs_appendFile (messagesPath config) [Json testRunFinished; Newline]
   else ret tt) >>
  (if enabled (cfg_json preprocessor) then
     let* content := fs_readFile (messagesPath config) in
     let* messages := liftResult (parseAll (splitLines (trim content))) in
     let jsonOutput := createJsonFormatter messages in
     liftResult
       (assertIsString jsonOutput
          "Expected JSON formatter to have finished, but it never returned") >>
     fs_writeFileData (jsonPath config) jsonOutput
   else ret tt) >>
  (if enabled (cfg_html preprocessor) then
     let* content := fs_readFile (messagesPath config) in
     let* page := liftResult (htmlPipeline content) in
     fs_writeFile (htmlPath config) [Raw page]
   else ret tt).

Definition beforeSpecHandler (config : PluginConfigOptions) (spec : Spec)
    : M unit :=
  if negb (isTextTerminal config) || negb (isFeature spec) then ret tt else
  let preprocessor := resolve config in
  if negb (enabled (cfg_messages preprocessor)) &&
     negb (cfg_pretty_enabled preprocessor)
  then ret tt else
  let* st := get_state in
  match st with
  | StateInitial | StateAfterSpec =>
      if cfg_pretty_enabled preprocessor then
        let* channel := createPretty in
        set_state (StateBeforeSpec (PrettyEnabled channel))
      else
        set_state (StateBeforeSpec PrettyDisabled)
  | StateBeforeSpec _ | StateStepStarted _ _ _ _ => ret tt
  | _ => throw (createStateError "beforeSpecHandler" (state_name st))
  end.

(** [results.tests.some(test => test.displayError?.match(HOOK_FAILURE_EXPR))]. *)
Definition wasRemainingSkipped (results : RunResult) : bool :=
  existsb
    (fun test =>
       match displayError test with
       | Some e => HOOK_FAILURE_EXPR e
       | None => false
       end)
    (tests results).

Definition hookFailureNotice (spec : Spec) : string :=
  "  Hook failures can't be represented in any reports (messages / json / html), thus none is created for " +:+
  spec_relative spec +:+ ".".

(** [results] is [None] where the source finds it undefined. *)
Definition afterSpecHandler (config : PluginConfigOptions) (spec : Spec)
    (results : option RunResult) : M unit :=
  if negb (isTextTerminal config) || negb (isFeature spec) then ret tt else
  let preprocessor := resolve config in
  (match enabled (cfg_messages preprocessor), results with
   | true, Some results =>
       if wasRemainingSkipped results then
         console_log (hookFailureNotice spec)
       else
         let* st := get_state in
         match state_messages st with
         | Some messages =>
             fs_appendFile (messagesPath config)
               (joinLines messages ++ [Newline])
         | None => ret tt
         end
   | _, _ => ret tt
   end) >>
  let* st := get_state in
  (match state_pretty st with
   | Some (PrettyEnabled channel) => endStream channel
   | _ => ret tt
   end) >>
  set_state StateAfterSpec.

(** [fs.readFile(details.path)] of a screenshot; [None] where it throws. *)
Definition readScreenshot (path : string) : M (option (list byte)) :=
  let* w := get_world in ret (screenshots w !! path).

Definition afterScreenshotHandler (config : PluginConfigOptions)
    (details : ScreenshotDetails) : M ScreenshotDetails :=
  if negb (isTextTerminal config) then ret details else
  let preprocessor := resolve config in
  if negb (enabled (cfg_messages preprocessor)) then ret details else
  let* st := get_state in
  match st with
  | StateStepStarted pretty messages testCaseStartedId testStepStartedId =>
      let* buffer := readScreenshot (sd_path details) in
      match buffer with
      | None => ret details
      | Some buffer =>
          let message := attachmentEnvelope
            {| att_testCaseStartedId := testCaseStartedId;
               att_testStepId := testStepStartedId;
               att_body := Base64.encode buffer;
               att_mediaType := "image/png";
               att_contentEncoding := BASE64 |} in
          set_state (StateStepStarted pretty (messages ++ [message])
                       testCaseStartedId testStepStartedId) >>
          ret details
      end
  | _ => ret details
  end.

Definition specEnvelopesHandler (config : PluginConfigOptions)
    (data : list Envelope) : M bool :=
  if negb (isTextTerminal config) then ret true else
  let* st := get_state in
  match st with
  | StateBeforeSpec pretty =>
      (match pretty with
       | PrettyEnabled channel => emitAll channel data
       | PrettyDisabled => ret tt
       end) >>
      set_state (StateReceivedSpecEnvelopes pretty data) >>
      ret true
  | StateStepStarted pretty messages _ _ =>
      let iTestCaseStarted :=
        findLastIndex (fun message => bool_decide (is_Some (testCaseStarted message)))
          messages in
      if (iTestCaseStarted =? -1)%Z then
        throw (createError "Expected to find a testCaseStarted envelope")
      else
        let* pretty' :=
          match pretty with
          | PrettyEnabled channel =>
              endStream channel >>
              console_log "  Reloading.." >>
              console_log "" >>
              let* channel' := createPretty in
              emitAll channel' data >>
              ret (PrettyEnabled channel')
          | PrettyDisabled => ret pretty
          end in
        set_state (StateReceivedSpecEnvelopes pretty'
                     (slice0 messages iTestCaseStarted)) >>
        ret true
  | _ => throw (createStateError "specEnvelopesHandler" (state_name st))
  end.

Definition testCaseStartedHandler (config : PluginConfigOptions)
    (data : TestCaseStarted) : M bool :=
  if negb (isTextTerminal config) then ret true else
  let* st := get_state in
  match st with
  | StateReceivedSpecEnvelopes pretty messages
  | StateTestFinished pretty messages =>
      emitIfEnabled pretty (testCaseStartedEnvelope data) >>
      set_state (StateTestStarted pretty
                   (messages ++ [testCaseStartedEnvelope data]) (tcs_id data)) >>
      ret true
  | _ => throw (createStateError "testCaseStartedHandler" (state_name st))
  end.

Definition testStepStartedHandler (config : PluginConfigOptions)
    (data : TestStepStarted) : M bool :=
  if negb (isTextTerminal config) then ret true else
  let* st := get_state in
  match st with
  | StateTestStarted pretty messages testCaseStartedId
  | StateStepFinished pretty messages testCaseStartedId
  | StateStepStarted pretty messages testCaseStartedId _ =>
      emitIfEnabled pretty (testStepStartedEnvelope data) >>
      set_state (StateStepStarted pretty
                   (messages ++ [testStepStartedEnvelope data])
                   testCaseStartedId (tss_testStepId data)) >>
      ret true
  | _ => throw (createStateError "testStepStartedHandler" (state_name st))
  end.

Definition createStringAttachmentHandler (config : PluginConfigOptions)
    (task : ITaskCreateStringAttachment) : M bool :=
  if negb (isTextTerminal config) then ret true else
  let preprocessor := resolve config in
  if negb (enabled (cfg_messages preprocessor)) then ret true else
  let* st := get_state in
  match st with
  | StateStepStarted pretty messages testCaseStartedId testStepStartedId =>
      let message := attachmentEnvelope
        {| att_testCaseStartedId := testCaseStartedId;
           att_testStepId := testStepStartedId;
           att_body := csa_data task;
           att_mediaType := csa_mediaType task;
           att_contentEncoding := csa_encoding task |} in
      set_state (StateStepStarted pretty (messages ++ [message])
                   testCaseStartedId testStepStartedId) >>
      ret true
  | _ => throw (createStateError "createStringAttachmentHandler" (state_name st))
  end.

(** The [attach] closure handed to the callback; [attachments] is the
    local array it pushes to. *)
Definition attach (data : AttachData) (mediaType : option string)
    (attachments : list ITaskCreateStringAttachment)
    : Result (list ITaskCreateStringAttachment) :=
  match data with
  | DataString data =>
      let mediaType := default "text/plain" mediaType in
      if startsWith mediaType "base64:" then
        Ok (attachments ++
              [{| csa_data := data;
                  csa_mediaType := replace mediaType "base64:" "";
                  csa_encoding := BASE64 |}])
      else
        Ok (attachments ++
              [{| csa_data := data;
                  csa_mediaType := mediaType;
                  csa_encoding := IDENTITY |}])
  | DataBuffer bytes =>
      match mediaType with
      | None => Err (Error "Buffer attachments must specify a media type")
      | Some mediaType =>
          Ok (attachments ++
                [{| csa_data := Base64.encode bytes;
                    csa_mediaType := mediaType;
                    csa_encoding := BASE64 |}])
      end
  | DataOther => Err (Error "Invalid attachment data: must be a Buffer or string")
  end.

(** [await options.onAfterStep?.({ ..., attach })]: the callback's calls of
    [attach] run in order on the local array, the first failure ends them. *)
Fixpoint runAttachCalls (calls : list (AttachData * option string))
    (attachments : list ITaskCreateStringAttachment)
    : Result (list ITaskCreateStringAttachment) :=
  match calls with
  | [] => Ok attachments
  | (data, mediaType) :: calls' =>
      match attach data mediaType attachments with
      | Ok attachments' => runAttachCalls calls' attachments'
      | Err e => Err e
      end
  end.

Definition callOnAfterStep (onAfterStep : option OnAfterStep)
    (options : AfterStepOptions) : Result (list ITaskCreateStringAttachment) :=
  match onAfterStep with
  | Some callback => runAttachCalls (callback options) []
  | None => Ok []
  end.

(** The lookups that open [testStepFinishedHandler]: the started test
    case, its test case and the finished test step. *)
Definition resolveTestStep (messages : list Envelope)
    (testStepFinished : TestStepFinished) : Result (string * TestStep) :=
  let testCaseStartedId := tsf_testCaseStartedId testStepFinished in
  let testStepId := tsf_testStepId testStepFinished in
  let? started :=
    assertAndReturn
      (findPayload testCaseStarted
         (fun testCaseStarted => String.eqb (tcs_id testCaseStarted) testCaseStartedId)
         messages)
      "Expected to find a testCaseStarted" in
  let pickleId := tcs_testCaseId started in
  let? testCase :=
    assertAndReturn
      (findPayload testCase (fun testCase => String.eqb (tc_id testCase) pickleId)
         messages)
      "Expected to find a testCase" in
  let? testStep :=
    assertAndReturn
      (List.find (fun testStep => String.eqb (ts_id testStep) testStepId)
         (tc_testSteps testCase))
      "Expected to find a testStep" in
  Ok (pickleId, testStep).

(** The lookups for a test step that has a [pickleStepId]: what the
    callback is handed. *)
Definition resolvePickleStep (messages : list Envelope) (pickleId : string)
    (pickleStepId : string) : Result (Pickle * PickleStep * GherkinDocument) :=
  let? pickle :=
    assertAndReturn
      (findPayload pickle (fun pickle => String.eqb (pk_id pickle) pickleId)
         messages)
      "Expected to find a pickle" in
  let? pickleStep :=
    assertAndReturn
      (List.find (fun step => String.eqb (ps_id step) pickleStepId)
         (pk_steps pickle))
      "Expected to find a pickleStep" in
  let? gherkinDocument :=
    assertAndReturn
      (findPayload gherkinDocument
         (fun gherkinDocument =>
            bool_decide (gd_uri gherkinDocument = Some (pk_uri pickle)))
         messages)
      "Expected to find a gherkinDocument" in
  Ok (pickle, pickleStep, gherkinDocument).

Definition afterStepOptions (testStepFinished : TestStepFinished)
    (resolved : Pickle * PickleStep * GherkinDocument) : AfterStepOptions :=
  {| aso_result := tsf_testStepResult testStepFinished;
     aso_pickle := fst (fst resolved);
     aso_pickleStep := snd (fst resolved);
     aso_gherkinDocument := snd resolved;
     aso_testCaseStartedId := tsf_testCaseStartedId testStepFinished;
     aso_testStepId := tsf_testStepId testStepFinished |}.

(** The closing assignment reads the state cell again: the attachment
    handler has pushed to [state.messages] in between. The cell still
    holds a step-started state there. *)
Definition testStepFinishedHandler (config : PluginConfigOptions)
    (onAfterStep : option OnAfterStep) (testStepFinished : TestStepFinished)
    : M bool :=
  if negb (isTextTerminal config) then ret true else
  let* st := get_state in
  match st with
  | StateStepStarted pretty messages _ _ =>
      emitIfEnabled pretty (testStepFinishedEnvelope testStepFinished) >>
      let* found := liftResult (resolveTestStep messages testStepFinished) in
      let pickleId := fst found in
      let testStep := snd found in
      (match ts_pickleStepId testStep with
       | Some pickleStepId =>
           let* resolved :=
             liftResult (resolvePickleStep messages pickleId pickleStepId) in
           let* attachments :=
             liftResult
               (callOnAfterStep onAfterStep
                  (afterStepOptions testStepFinished resolved)) in
           forEach (createStringAttachmentHandler config) attachments
       | None =>
           liftResult
             (assert (Some (bool_decide (is_Some (ts_hookId testStep))))
                "Expected a hookId in absence of pickleStepId")
       end) >>
      let* st' := get_state in
      match st' with
      | StateStepStarted pretty' messages' testCaseStartedId' _ =>
          set_state (StateStepFinished pretty'
                       (messages' ++ [testStepFinishedEnvelope testStepFinished])
                       testCaseStartedId') >>
          ret true
      | _ => throw (createStateError "testStepFinishedHandler" (state_name st'))
      end
  | _ => throw (createStateError "testStepFinishedHandler" (state_name st))
  end.

Definition testCaseFinishedHandler (config : PluginConfigOptions)
    (data : TestCaseFinished) : M bool :=
  if negb (isTextTerminal config) then ret true else
  let* st := get_state in
  match st with
  | StateTestStarted pretty messages _
  | StateStepFinished pretty messages _ =>
      emitIfEnabled pretty (testCaseFinishedEnvelope data) >>
      set_state (StateTestFinished pretty
                   (messages ++ [testCaseFinishedEnvelope data])) >>
      ret true
  | _ => throw (createStateError "testCaseFinishedHandler" (state_name st))
  end.

(** ** Events *)

(** The notifications the orchestrator sends between run start and run
    end, each with the arguments of its handler. *)
Inductive Event :=
| SpecAboutToStart (spec : Spec)
| StaticScenarioDataReceived (data : list Envelope)
| TestCaseStartedEvent (data : TestCaseStarted)
| TestStepStartedEvent (data : TestStepStarted)
| TestStepFinishedEvent (onAfterStep : option OnAfterStep)
    (data : TestStepFinished)
| TestCaseFinishedEvent (data : TestCaseFinished)
| SpecFinished (spec : Spec) (results : option RunResult)
| ScreenshotCaptured (details : ScreenshotDetails)
| StringAttachmentRequested (task : ITaskCreateStringAttachment).

Definition handlerName (ev : Event) : string :=
  match ev with
  | SpecAboutToStart _ => "beforeSpecHandler"
  | StaticScenarioDataReceived _ => "specEnvelopesHandler"
  | TestCaseStartedEvent _ => "testCaseStartedHandler"
  | TestStepStartedEvent _ => "testStepStartedHandler"
  | TestStepFinishedEvent _ _ => "testStepFinishedHandler"
  | TestCaseFinishedEvent _ => "testCaseFinishedHandler"
  | SpecFinished _ _ => "afterSpecHandler"
  | ScreenshotCaptured _ => "afterScreenshotHandler"
  | StringAttachmentRequested _ => "createStringAttachmentHandler"
  end.

(** The handler of an event, its return value dropped. *)
Definition handle (config : PluginConfigOptions) (ev : Event) : M unit :=
  match ev with
  | SpecAboutToStart spec => beforeSpecHandler config spec
  | StaticScenarioDataReceived data => specEnvelopesHandler config data >> ret tt
  | TestCaseStartedEvent data => testCaseStartedHandler config data >> ret tt
  | TestStepStartedEvent data => testStepStartedHandler config data >> ret tt
  | TestStepFinishedEvent onAfterStep data =>
      testStepFinishedHandler config onAfterStep data >> ret tt
  | TestCaseFinishedEvent data => testCaseFinishedHandler config data >> ret tt
  | SpecFinished spec results => afterSpecHandler config spec results
  | ScreenshotCaptured details => afterScreenshotHandler config details >> ret tt
  | StringAttachmentRequested task =>
      createStringAttachmentHandler config task >> ret tt
  end.

(** The machine after a sequence of events; a handler that throws leaves
    the machine as it was when it threw, and the next event is handled
    from there. *)
Fixpoint handleAll (config : PluginConfigOptions) (evs : list Event)
    (m : Machine) : Machine :=
  match evs with
  | [] => m
  | ev :: evs' => handleAll config evs' (snd (handle config ev m))
  end.

(** The transition table of the specification, section 4.1: the states an
    event is legal from. Spec-finished is legal from any state and a
    screenshot outside step-started passes through. *)
Definition legalFrom (ev : Event) (stateName : string) : bool :=
  match ev with
  | SpecAboutToStart _ =>
      bool_decide (stateName ∈ ["initial"; "after-spec"; "before-spec"; "step-started"])
  | StaticScenarioDataReceived _ =>
      bool_decide (stateName ∈ ["before-spec"; "step-started"])
  | TestCaseStartedEvent _ =>
      bool_decide (stateName ∈ ["received-envelopes"; "test-finished"])
  | TestStepStartedEvent _ =>
      bool_decide (stateName ∈ ["test-started"; "step-finished"; "step-started"])
  | TestStepFinishedEvent _ _ => bool_decide (stateName = "step-started")
  | TestCaseFinishedEvent _ =>
      bool_decide (stateName ∈ ["test-started"; "step-finished"])
  | SpecFinished _ _ => true
  | ScreenshotCaptured _ => true
  | StringAttachmentRequested _ => bool_decide (stateName = "step-started")
  end.

(** ** Definitions the statements use *)

(** The guards a handler passes before it looks at the state, the run
    mode apart. *)
Definition passesGuards (config : PluginConfigOptions) (ev : Event) : bool :=
  match ev with
  | SpecAboutToStart spec =>
      isFeature spec &&
      (enabled (cfg_messages (resolve config)) || cfg_pretty_enabled (resolve config))
  | StringAttachmentRequested _ => enabled (cfg_messages (resolve config))
  | _ => true
  end.

(** The envelope [createStringAttachmentHandler] builds for a task while
    the given test case and step are open. *)
Definition recordedAttachment (testCaseStartedId testStepStartedId : string)
    (task : ITaskCreateStringAttachment) : Envelope :=
  attachmentEnvelope
    {| att_testCaseStartedId := testCaseStartedId;
       att_testStepId := testStepStartedId;
       att_body := csa_data task;
       att_mediaType := csa_mediaType task;
       att_contentEncoding := csa_encoding task |}.

(** The envelopes the attachment loop of [testStepFinishedHandler] pushes:
    none when message output is disabled. *)
Definition recordedAttachments (config : PluginConfigOptions)
    (testCaseStartedId testStepStartedId : string)
    (tasks : list ITaskCreateStringAttachment) : list Envelope :=
  if enabled (cfg_messages (resolve config))
  then map (recordedAttachment testCaseStartedId testStepStartedId) tasks
  else [].

(** The part of [testStepFinishedHandler] between the emit and the
    attachment loop, which touches neither state nor world: the lookups
    and the callback. *)
Definition stepAttachments (messages : list Envelope)
    (onAfterStep : option OnAfterStep) (testStepFinished : TestStepFinished)
    : Result (list ITaskCreateStringAttachment) :=
  let? found := resolveTestStep messages testStepFinished in
  match ts_pickleStepId (snd found) with
  | Some pickleStepId =>
      let? resolved := resolvePickleStep messages (fst found) pickleStepId in
      callOnAfterStep onAfterStep (afterStepOptions testStepFinished resolved)
  | None =>
      let? _ := assert (Some (bool_decide (is_Some (ts_hookId (snd found)))))
                  "Expected a hookId in absence of pickleStepId" in
      Ok []
  end.

(** The two records [beforeRunHandler] writes in a world. *)
Definition runHeader (w : World) : list chunk :=
  [Json (metaEnvelope (createMeta (host w))); Newline;
   Json (testRunStartedEnvelope {| trs_timestamp := clock w |}); Newline].

(** The record [afterRunHandler] appends in a world. *)
Definition runFooter (w : World) : list chunk :=
  [Json (testRunFinishedEnvelope
           {| trf_timestamp := clock w; trf_success := None |}); Newline].

(** What a handler does to the text files: nothing, or an append to the
    message log. *)
Definition appendsToLog (config : PluginConfigOptions) (m m' : Machine) : Prop :=
  files (world m') = files (world m) \/
  exists extra,
    files (world m') =
    <[messagesPath config :=
        default [] (files (world m) !! messagesPath config) ++ extra]>
      (files (world m)).

End Handlers.

(** ** The specification's wording of the cross-reference lookups *)

(** Specification, section 4.1: a lookup by id scans from the end of the
    buffer, so that the most recently received match wins. *)
Definition findLastPayload {A B} (f : A -> option B) (p : B -> bool)
    (l : list A) : option B :=
  List.find p (rev (omap f l)).

(** [b] is the payload of the first element of [l] that has a payload
    under [f] which satisfies [P]: nothing before it does. *)
Definition firstMatch {A B} (f : A -> option B) (P : B -> Prop)
    (l : list A) (b : B) : Prop :=
  exists before e after,
    l = before ++ e :: after /\
    f e = Some b /\
    P b /\
    Forall (fun e' => forall b', f e' = Some b' -> ~ P b') before.

(** ** Sample data *)

Module Sample.

Definition repository : string :=
  "https://github.com/badeball/cypress-cucumber-preprocessor".

(** An instance of the imported modules for the examples. The hook failure
    expression is recognised by its fixed tail; the JSON formatter and the
    HTML pipeline answer with a fixed document. *)
Definition imports : Imports :=
  {| homepage := repository;
     createError := fun message =>
       CypressCucumberError
         (message +:+ " (this might be a bug, please report at " +:+
          repository +:+ ")");
     HOOK_FAILURE_EXPR := fun e =>
       bool_decide (is_Some (index 0 "hook we are skipping all of the remaining tests" e));
     ensureIsAbsolute := fun root p =>
       if String.prefix "/" p then p else root +:+ "/" +:+ p;
     messages_version := "24.0.0";
     packageVersion := "20.0.0";
     createJsonFormatter := fun _ => Some "[]";
     htmlPipeline := fun _ => Ok "<html></html>" |}.

(** The same with a JSON formatter that never calls back. *)
Definition silentFormatter : Imports :=
  {| homepage := homepage (Imports := imports);
     createError := createError (Imports := imports);
     HOOK_FAILURE_EXPR := HOOK_FAILURE_EXPR (Imports := imports);
     ensureIsAbsolute := ensureIsAbsolute (Imports := imports);
     messages_version := messages_version (Imports := imports);
     packageVersion := packageVersion (Imports := imports);
     createJsonFormatter := fun _ => None;
     htmlPipeline := htmlPipeline (Imports := imports) |}.

Definition preprocessor (messagesEnabled prettyEnabled : bool)
    : IPreprocessorConfiguration :=
  {| cfg_messages := {| enabled := messagesEnabled;
                        output := "cucumber-messages.ndjson" |};
     cfg_json := {| enabled := false; output := "cucumber-report.json" |};
     cfg_html := {| enabled := false; output := "cucumber-report.html" |};
     cfg_pretty_enabled := prettyEnabled |}.

(** Run mode, message output on, live formatter off. *)
Definition config : PluginConfigOptions :=
  {| isTextTerminal := true; projectRoot := "/project";
     resolve := preprocessor true false |}.

(** Run mode, message output off, live formatter on. *)
Definition configPrettyOnly : PluginConfigOptions :=
  {| isTextTerminal := true; projectRoot := "/project";
     resolve := preprocessor false true |}.

(** Run mode, message output and live formatter on. *)
Definition configPretty : PluginConfigOptions :=
  {| isTextTerminal := true; projectRoot := "/project";
     resolve := preprocessor true true |}.

(** Run mode with message output and both reports on. *)
Definition configReports : PluginConfigOptions :=
  {| isTextTerminal := true; projectRoot := "/project";
     resolve :=
       {| cfg_messages := {| enabled := true;
                             output := "cucumber-messages.ndjson" |};
          cfg_json := {| enabled := true; output := "cucumber-report.json" |};
          cfg_html := {| enabled := true; output := "cucumber-report.html" |};
          cfg_pretty_enabled := false |} |}.

(** Interactive mode. *)
Definition configInteractive : PluginConfigOptions :=
  {| isTextTerminal := false; projectRoot := "/project";
     resolve := preprocessor true false |}.

Definition logPath : string := "/project/cucumber-messages.ndjson".

Definition t0 : Timestamp := {| seconds := 1700000000; nanos := 0 |}.

Definition png : list byte := [x41; x42; x43]%byte.

Definition world0 : World :=
  {| files := ∅;
     screenshots := {[ "/project/screenshots/a.png" := png ]};
     channels := [];
     console := [];
     clock := t0;
     host := {| os_arch := "x64"; os_platform := "linux";
                os_release := "6.1"; node_version := "20.11.0";
                ci_environment := None |} |}.

Definition feature : Spec :=
  {| spec_name := "login.feature";
     spec_relative := "cypress/e2e/login.feature" |}.

Definition plainSpec : Spec :=
  {| spec_name := "login.cy.ts"; spec_relative := "cypress/e2e/login.cy.ts" |}.

Definition document : GherkinDocument :=
  {| gd_uri := Some "cypress/e2e/login.feature"; gd_comments := [] |}.

Definition scenario : Pickle :=
  {| pk_id := "pickle-1"; pk_uri := "cypress/e2e/login.feature";
     pk_name := "a user logs in";
     pk_steps := [ {| ps_id := "ps-1"; ps_text := "a user" |};
                   {| ps_id := "ps-2"; ps_text := "they log in" |} ] |}.

Definition otherScenario : Pickle :=
  {| pk_id := "pickle-2"; pk_uri := "cypress/e2e/login.feature";
     pk_name := "a user logs out";
     pk_steps := [ {| ps_id := "ps-1"; ps_text := "a user" |} ] |}.

Definition case : TestCase :=
  {| tc_id := "pickle-1"; tc_pickleId := "pickle-1";
     tc_testSteps :=
       [ {| ts_id := "hook-step"; ts_pickleStepId := None;
            ts_hookId := Some "hook-1" |};
         {| ts_id := "step-1"; ts_pickleStepId := Some "ps-1";
            ts_hookId := None |};
         {| ts_id := "step-2"; ts_pickleStepId := Some "ps-2";
            ts_hookId := None |} ] |}.

Definition otherCase : TestCase :=
  {| tc_id := "pickle-2"; tc_pickleId := "pickle-2";
     tc_testSteps :=
       [ {| ts_id := "step-1"; ts_pickleStepId := Some "ps-1";
            ts_hookId := None |} ] |}.

(** What the browser sends when a feature file is loaded. *)
Definition scenarioData : list Envelope :=
  [ gherkinDocumentEnvelope document; pickleEnvelope scenario;
    testCaseEnvelope case ].

(** What it sends after a reload, here with another scenario. *)
Definition reloadedData : list Envelope :=
  [ gherkinDocumentEnvelope document; pickleEnvelope otherScenario;
    testCaseEnvelope otherCase ].

Definition started : TestCaseStarted :=
  {| tcs_id := "tcs-1"; tcs_testCaseId := "pickle-1"; tcs_attempt := 0;
     tcs_timestamp := t0 |}.

(** A second started test case under the id of the first. *)
Definition startedAgain : TestCaseStarted :=
  {| tcs_id := "tcs-1"; tcs_testCaseId := "pickle-2"; tcs_attempt := 1;
     tcs_timestamp := t0 |}.

Definition stepStarted : TestStepStarted :=
  {| tss_testCaseStartedId := "tcs-1"; tss_testStepId := "step-1";
     tss_timestamp := t0 |}.

Definition stepFinished : TestStepFinished :=
  {| tsf_testCaseStartedId := "tcs-1"; tsf_testStepId := "step-1";
     tsf_testStepResult := {| tsr_status := PASSED; tsr_message := None |};
     tsf_timestamp := t0 |}.

Definition caseFinished : TestCaseFinished :=
  {| tcf_testCaseStartedId := "tcs-1"; tcf_timestamp := t0;
     tcf_willBeRetried := false |}.

Definition screenshot : ScreenshotDetails :=
  {| sd_path := "/project/screenshots/a.png";
     sd_takenAt := "2023-11-14T22:13:20.000Z"; sd_size := 3 |}.

Definition missingScreenshot : ScreenshotDetails :=
  {| sd_path := "/project/screenshots/gone.png";
     sd_takenAt := "2023-11-14T22:13:20.000Z"; sd_size := 0 |}.

Definition machine (s : State) : Machine := {| state := s; world := world0 |}.

(** The same world with one live formatter channel open. *)
Definition liveMachine (s : State) : Machine :=
  {| state := s;
     world := set_channels world0 [{| received := []; ended := false |}] |}.

(** A step of the first scenario is open. *)
Definition openBuffer : list Envelope :=
  scenarioData ++ [testCaseStartedEnvelope started;
                   testStepStartedEnvelope stepStarted].

Definition stepOpen : State :=
  StateStepStarted PrettyDisabled openBuffer "tcs-1" "step-1".

Definition firstStep : TestStep :=
  {| ts_id := "step-1"; ts_pickleStepId := Some "ps-1"; ts_hookId := None |}.

Definition firstPickleStep : PickleStep :=
  {| ps_id := "ps-1"; ps_text := "a user" |}.

Definition note : ITaskCreateStringAttachment :=
  {| csa_data := "note"; csa_mediaType := "text/plain";
     csa_encoding := IDENTITY |}.

(** The scenario data of both scenarios, the first test case started twice
    under one id, and an open step. *)
Definition startedTwice : list Envelope :=
  scenarioData ++
  [pickleEnvelope otherScenario; testCaseEnvelope otherCase;
   testCaseStartedEnvelope started; testCaseStartedEnvelope startedAgain;
   testStepStartedEnvelope stepStarted].

(** A first test case is over. *)
Definition firstCaseOver : list Envelope :=
  scenarioData ++
  [testCaseStartedEnvelope started; testCaseFinishedEnvelope caseFinished].

(** A callback that attaches one text. *)
Definition attachText (body : string) (mediaType : option string)
    : OnAfterStep :=
  fun _ => [(DataString body, mediaType)].

(** A callback that attaches the name of the scenario it is called for. *)
Definition attachScenarioName : OnAfterStep :=
  fun options => [(DataString (pk_name (aso_pickle options)), None)].

Definition failedHook : RunResult :=
  {| tests :=
       [ {| displayError := None |};
         {| displayError := Some
              "Because this error occurred during a `before each` hook we are skipping all of the remaining tests." |} ] |}.

Definition passed : RunResult := {| tests := [ {| displayError := None |} ] |}.

(** One spec with one scenario, from spec start to spec end. *)
Definition oneScenario : list Event :=
  [SpecAboutToStart feature; StaticScenarioDataReceived scenarioData;
   TestCaseStartedEvent started; TestStepStartedEvent stepStarted;
   TestStepFinishedEvent None stepFinished;
   TestCaseFinishedEvent caseFinished; SpecFinished feature (Some passed)].

End Sample.

(** ** Invariants of the state cell and of the channels *)

(** [array.map(f).filter(notNull).at(-1)]: the payload received last. *)
Definition lastPayload {A B} (f : A -> option B) (l : list A) : option B :=
  last (omap f l).

(** The ids a state carries are those of the test case and of the test step
    that were started last, as the buffer records them. *)
Definition openCaseRecorded (s : State) : Prop :=
  match s with
  | StateTestStarted _ messages testCaseStartedId
  | StateStepFinished _ messages testCaseStartedId =>
      tcs_id <$> lastPayload testCaseStarted messages = Some testCaseStartedId
  | StateStepStarted _ messages testCaseStartedId testStepStartedId =>
      tcs_id <$> lastPayload testCaseStarted messages = Some testCaseStartedId /\
      tss_testStepId <$> lastPayload testStepStarted messages =
        Some testStepStartedId
  | _ => True
  end.

(** A live formatter channel that was created and not ended. *)
Definition isOpen (chs : list Channel) (i : nat) : Prop :=
  exists ch, chs !! i = Some ch /\ ended ch = false.

(** The channels that are open are the channel of the state, if it has
    one: none is left open behind, none is used after its end. *)
Definition oneOpenChannel (m : Machine) : Prop :=
  forall i,
    isOpen (channels (world m)) i <->
    state_pretty (state m) = Some (PrettyEnabled i).

(** Every handler of a sequence of events returns: none throws. *)
Fixpoint allHandled {imports : Imports} (config : PluginConfigOptions)
    (evs : list Event) (m : Machine) : Prop :=
  match evs with
  | [] => True
  | ev :: evs' =>
      fst (handle config ev m) = Ok tt /\
      allHandled config evs' (snd (handle config ev m))
  end.

(** A log of one record per line, each with its line end. *)
Definition records (l : list Envelope) : list chunk :=
  flat_map (fun e => [Json e; Newline]) l.

(** The state an event leads to when its handler returns, by the name of
    the state it arrives in: the switch of each handler, read as a table. *)
Definition targetState (ev : Event) (stateName : string) : string :=
  match ev with
  | SpecAboutToStart _ =>
      if bool_decide (stateName ∈ ["initial"; "after-spec"])
      then "before-spec" else stateName
  | StaticScenarioDataReceived _ => "received-envelopes"
  | TestCaseStartedEvent _ => "test-started"
  | TestStepStartedEvent _ => "step-started"
  | TestStepFinishedEvent _ _ => "step-finished"
  | TestCaseFinishedEvent _ => "test-finished"
  | SpecFinished spec _ => if isFeature spec then "after-spec" else stateName
  | ScreenshotCaptured _ | StringAttachmentRequested _ => stateName
  end.

(** ** More sample data *)

Module SampleRun.

(** Run mode with message output and the JSON report on. *)
Definition configJson : PluginConfigOptions :=
  {| isTextTerminal := true; projectRoot := "/project";
     resolve :=
       {| cfg_messages := {| enabled := true;
                             output := "cucumber-messages.ndjson" |};
          cfg_json := {| enabled := true; output := "cucumber-report.json" |};
          cfg_html := {| enabled := false; output := "cucumber-report.html" |};
          cfg_pretty_enabled := false |} |}.

(** A world whose message log holds the scenario data. *)
Definition loggedWorld : World :=
  set_files Sample.world0 {[ Sample.logPath := records Sample.scenarioData ]}.

(** A world with one channel, ended. *)
Definition quietWorld : World :=
  set_channels Sample.world0 [{| received := []; ended := true |}].

(** From spec start to an open step. *)
Definition untilStepOpen : list Event :=
  [SpecAboutToStart Sample.feature;
   StaticScenarioDataReceived Sample.scenarioData;
   TestCaseStartedEvent Sample.started;
   TestStepStartedEvent Sample.stepStarted].

(** A finished step of a test case that was never started. *)
Definition strayStepFinished : TestStepFinished :=
  {| tsf_testCaseStartedId := "tcs-9"; tsf_testStepId := "step-1";
     tsf_testStepResult := {| tsr_status := FAILED; tsr_message := None |};
     tsf_timestamp := Sample.t0 |}.

(** The hook step of the first test case has finished. *)
Definition hookStepFinished : TestStepFinished :=
  {| tsf_testCaseStartedId := "tcs-1"; tsf_testStepId := "hook-step";
     tsf_testStepResult := {| tsr_status := PASSED; tsr_message := None |};
     tsf_timestamp := Sample.t0 |}.

Definition hookStep : TestStep :=
  {| ts_id := "hook-step"; ts_pickleStepId := None; ts_hookId := Some "hook-1" |}.

(** A callback that attaches a text and then an image. *)
Definition attachTwo : OnAfterStep :=
  fun _ => [(DataString "seen", None); (DataBuffer Sample.png, Some "image/png")].

(** A test case whose only step names neither a pickle step nor a hook,
    started, with the step open. *)
Definition bareStep : TestStep :=
  {| ts_id := "bare-step"; ts_pickleStepId := None; ts_hookId := None |}.

Definition bareCase : TestCase :=
  {| tc_id := "pickle-3"; tc_pickleId := "pickle-3";
     tc_testSteps := [bareStep] |}.

Definition bareBuffer : list Envelope :=
  [testCaseEnvelope bareCase;
   testCaseStartedEnvelope
     {| tcs_id := "tcs-3"; tcs_testCaseId := "pickle-3"; tcs_attempt := 0;
        tcs_timestamp := Sample.t0 |};
   testStepStartedEnvelope
     {| tss_testCaseStartedId := "tcs-3"; tss_testStepId := "bare-step";
        tss_timestamp := Sample.t0 |}].

Definition bareStepFinished : TestStepFinished :=
  {| tsf_testCaseStartedId := "tcs-3"; tsf_testStepId := "bare-step";
     tsf_testStepResult := {| tsr_status := PASSED; tsr_message := None |};
     tsf_timestamp := Sample.t0 |}.

End SampleRun.

(** * Properties *)

(** ** Arrays and channels *)

Section ArrayFacts.
Context {A : Type} (p : A -> bool).

Lemma findLastIndex_from_bounds (l : list A) (i : Z) :
  (0 <= i)%Z ->
  findLastIndex_from p l i = (-1)%Z \/
  (i <= findLastIndex_from p l i < i + Z.of_nat (length l))%Z.
Proof.
  revert i. induction l as [|x l IH]; intros i Hi; simpl.
  - by left.
  - destruct (IH (i + 1)%Z ltac:(lia)) as [E|E].
    + rewrite E. simpl. destruct (p x); [right; lia | by left].
    + destruct (Z.eqb_spec (findLastIndex_from p l (i + 1)) (-1)); [lia|].
      right. lia.
Qed.

Lemma findLastIndex_from_none (l : list A) (i : Z) :
  Forall (fun y => p y = false) l -> findLastIndex_from p l i = (-1)%Z.
Proof.
  intros H. revert i. induction H as [|x l Hx _ IH]; intros i; simpl; [done|].
  by rewrite IH, Hx.
Qed.

Lemma findLastIndex_from_last (l l' : list A) (x : A) (i : Z) :
  (0 <= i)%Z -> p x = true -> Forall (fun y => p y = false) l' ->
  findLastIndex_from p (l ++ x :: l') i = (i + Z.of_nat (length l))%Z.
Proof.
  intros Hi Hx Hl'. revert i Hi. induction l as [|y l IH]; intros i Hi; simpl.
  - rewrite findLastIndex_from_none by done. simpl. rewrite Hx. lia.
  - rewrite IH by lia.
    destruct (Z.eqb_spec (i + 1 + Z.of_nat (length l)) (-1)); lia.
Qed.

Lemma slice0_findLastIndex (l l' : list A) (x : A) :
  p x = true -> Forall (fun y => p y = false) l' ->
  slice0 (l ++ x :: l') (findLastIndex p (l ++ x :: l')) = l.
Proof.
  intros Hx Hl'. unfold findLastIndex, slice0.
  rewrite findLastIndex_from_last by (done || lia).
  rewrite Z.add_0_l, Nat2Z.id. by rewrite take_app_length.
Qed.
End ArrayFacts.

Section ChannelFacts.
Lemma emitAll_spec c l m :
  emitAll c l m =
  (Ok tt, {| state := state m;
             world := set_channels (world m)
               (alter (fun ch => {| received := received ch ++ l; ended := ended ch |})
                  c (channels (world m))) |}).
Proof.
  revert m. induction l as [|e l IH]; intros [st w]; simpl.
  - unfold ret. f_equal. f_equal. destruct w; unfold set_channels; simpl. f_equal.
    symmetry. apply list_alter_id. intros []. simpl. by rewrite app_nil_r.
  - unfold bind, emit, get_world, set_world. simpl. rewrite IH. simpl.
    f_equal. f_equal. unfold set_channels. simpl. f_equal.
    rewrite list_alter_alter_eq. apply list_alter_ext; [|done].
    intros [] _. simpl. by rewrite <- app_assoc.
Qed.
End ChannelFacts.

Section Properties.
Context {imports : Imports}.

Ltac run_monad :=
  cbv beta iota delta
    [bind ret throw get_state set_state get_world set_world liftResult
     emitIfEnabled emit endStream console_log createPretty createTimestamp
     fs_rm fs_writeFile fs_writeFileData fs_appendFile fs_exists fs_readFile
     readScreenshot];
  simpl.

Lemma startedEnvelope_found (d : TestCaseStarted) :
  bool_decide (is_Some (testCaseStarted (testCaseStartedEnvelope d))) = true.
Proof. done. Qed.

(** Claim C1, as the code has it. In run mode, after test-case-started,
    test-step-started and static-scenario-data-received, handled in this
    order from a state test-case-started is legal in, the last handler
    returns [true] and the state is received-envelopes with the buffer as it
    was before the test case started: the envelopes of the interrupted test
    case are gone, and the newly received envelopes are not stored. With the
    live formatter enabled they are replayed into a new channel. *)
Theorem reload_keeps_earlier_buffer config started stepStarted data m pretty buffer :
  isTextTerminal config = true ->
  state m = StateReceivedSpecEnvelopes pretty buffer \/
  state m = StateTestFinished pretty buffer ->
  let m1 := snd (testCaseStartedHandler config started m) in
  let m2 := snd (testStepStartedHandler config stepStarted m1) in
  let r := specEnvelopesHandler config data m2 in
  fst r = Ok true /\
  state (snd r) =
    StateReceivedSpecEnvelopes
      (match pretty with
       | PrettyDisabled => PrettyDisabled
       | PrettyEnabled _ => PrettyEnabled (length (channels (world m)))
       end) buffer /\
  (forall c, pretty = PrettyEnabled c ->
     channels (world (snd r)) !! length (channels (world m)) =
     Some {| received := data; ended := false |}).
Proof.
  intros Hterm Hstate. destruct m as [st w]. simpl in Hstate.
  assert (Hcut : slice0
            ((buffer ++ [testCaseStartedEnvelope started]) ++
             [testStepStartedEnvelope stepStarted])
            (findLastIndex
               (fun message => bool_decide (is_Some (testCaseStarted message)))
               ((buffer ++ [testCaseStartedEnvelope started]) ++
                [testStepStartedEnvelope stepStarted])) = buffer).
  { rewrite <- app_assoc. simpl. apply slice0_findLastIndex; [done|].
    by repeat constructor. }
  assert (Hidx : (findLastIndex
               (fun message => bool_decide (is_Some (testCaseStarted message)))
               ((buffer ++ [testCaseStartedEnvelope started]) ++
                [testStepStartedEnvelope stepStarted]) =? -1)%Z = false).
  { rewrite <- app_assoc. simpl. unfold findLastIndex.
    rewrite findLastIndex_from_last by (done || lia || by repeat constructor).
    apply Z.eqb_neq. lia. }
  unfold testCaseStartedHandler, testStepStartedHandler, specEnvelopesHandler.
  rewrite Hterm. simpl.
  destruct Hstate as [-> | ->]; destruct pretty as [|c]; run_monad;
    rewrite ?Hidx, ?Hcut; simpl.
  all: try rewrite emitAll_spec; simpl.
  all: repeat split; try done.
  all: try (intros c' [= <-]).
  all: rewrite ?length_alter; try done.
  all: try (rewrite list_lookup_alter_eq, lookup_app_r by (by rewrite ?length_alter);
       rewrite ?length_alter, Nat.sub_diag; done).
Qed.

Lemma find_first {A} (p : A -> bool) (l1 l2 : list A) (x : A) :
  Forall (fun y => p y = false) l1 -> p x = true ->
  List.find p (l1 ++ x :: l2) = Some x.
Proof.
  intros H Hx. induction H as [|y l1 Hy _ IH]; simpl.
  - by rewrite Hx.
  - by rewrite Hy.
Qed.

Lemma findPayload_first {A B} (f : A -> option B) (p : B -> bool)
    (before after : list A) (e : A) (b : B) :
  Forall (fun e' => forall b', f e' = Some b' -> p b' = false) before ->
  f e = Some b -> p b = true ->
  findPayload f p (before ++ e :: after) = Some b.
Proof.
  intros Hbefore He Hb. unfold findPayload.
  rewrite omap_app. simpl. rewrite He.
  apply find_first; [|done].
  induction Hbefore as [|e' l He' _ IH]; simpl; [constructor|].
  destruct (f e') as [b'|] eqn:E; [|done].
  constructor; [by apply He'|done].
Qed.

Lemma findPayload_firstMatch {A B} (f : A -> option B) (P : B -> Prop)
    (p : B -> bool) (l : list A) (b : B) :
  (forall x, p x = true <-> P x) ->
  firstMatch f P l b ->
  findPayload f p l = Some b.
Proof.
  intros Hp (before & e & after & -> & He & Hb & Hbefore).
  apply findPayload_first; [|done|by apply Hp].
  eapply Forall_impl; [exact Hbefore|].
  intros e' H b' Hb'. specialize (H b' Hb').
  destruct (p b') eqn:E; [|done]. by apply Hp in E.
Qed.

(** Claim C3, as the code has it. In run mode, take an event that arrives
    in a state the transition table does not allow. If it passes the
    further guards of its handler (a feature spec and message or live output
    enabled for spec-about-to-start, message output enabled for a string
    attachment), it is answered by the state error, which names the handler
    and the state, and state and world are left as they were. If it does
    not, the handler returns without looking at the state. *)
Theorem illegal_event_raises_state_error config ev m :
  isTextTerminal config = true ->
  legalFrom ev (state_name (state m)) = false ->
  (passesGuards config ev = true ->
   handle config ev m =
     (Err (createStateError (handlerName ev) (state_name (state m))), m) /\
   exists guidance,
     createStateError (handlerName ev) (state_name (state m)) =
     CypressCucumberError
       ("Unexpected state in " +:+ handlerName ev +:+ ": " +:+
        state_name (state m) +:+ guidance)) /\
  (passesGuards config ev = false -> handle config ev m = (Ok tt, m)).
Proof.
  intros Hterm Hillegal. split.
  - intros Hguards. split; [|unfold createStateError; eauto].
    destruct m as [st w].
    destruct ev; simpl in Hguards, Hillegal |- *; try discriminate;
      unfold beforeSpecHandler, specEnvelopesHandler, testCaseStartedHandler,
        testStepStartedHandler, testStepFinishedHandler, testCaseFinishedHandler,
        createStringAttachmentHandler;
      rewrite Hterm; simpl; try done.
    all: try (apply andb_true_iff in Hguards as [-> Hout]; simpl;
              apply orb_true_iff in Hout;
              destruct (enabled (cfg_messages (resolve config))),
                (cfg_pretty_enabled (resolve config)); simpl;
              try (by destruct Hout)).
    all: try rewrite Hguards; simpl.
    all: destruct st; simpl in Hillegal |- *; try done.
  - intros Hguards.
    destruct ev; simpl in Hguards, Hillegal |- *; try discriminate.
    + unfold beforeSpecHandler. rewrite Hterm. simpl.
      destruct (isFeature spec); [|done]. simpl in Hguards |- *.
      apply orb_false_iff in Hguards as [-> ->]. done.
    + unfold createStringAttachmentHandler. rewrite Hterm, Hguards. done.
Qed.

(** Claim C6. A screenshot is answered with the details it came with and
    the world is left alone. Outside step-started the machine is unchanged.
    In step-started, in run mode with message output enabled and a file
    that can be read, the buffer gets exactly one attachment envelope more,
    which references the open test case and step and holds the base64
    encoding of the file as image/png; otherwise the state is unchanged. *)
Theorem screenshot_only_in_step_started config details m :
  let r := afterScreenshotHandler config details m in
  fst r = Ok details /\
  world (snd r) = world m /\
  match state m with
  | StateStepStarted pretty messages testCaseStartedId testStepStartedId =>
      state (snd r) =
        match isTextTerminal config && enabled (cfg_messages (resolve config)),
              screenshots (world m) !! sd_path details with
        | true, Some bytes =>
            StateStepStarted pretty
              (messages ++
               [attachmentEnvelope
                  {| att_testCaseStartedId := testCaseStartedId;
                     att_testStepId := testStepStartedId;
                     att_body := Base64.encode bytes;
                     att_mediaType := "image/png";
                     att_contentEncoding := BASE64 |}])
              testCaseStartedId testStepStartedId
        | _, _ => state m
        end
  | _ => snd r = m
  end.
Proof.
  destruct m as [st w]. unfold afterScreenshotHandler.
  destruct (isTextTerminal config), (enabled (cfg_messages (resolve config)));
    simpl; try (by destruct st; auto).
  destruct st; run_monad; auto.
  by destruct (screenshots w !! sd_path details) as [bytes|] eqn:E.
Qed.

(** Claim C10. The screenshot handler never throws and returns the details
    it was given; in step-started, when the file cannot be read, the machine
    is left as it was. *)
Theorem screenshot_read_failure_is_silent config details m :
  fst (afterScreenshotHandler config details m) = Ok details /\
  (forall pretty messages testCaseStartedId testStepStartedId,
     state m = StateStepStarted pretty messages testCaseStartedId testStepStartedId ->
     screenshots (world m) !! sd_path details = None ->
     snd (afterScreenshotHandler config details m) = m).
Proof.
  destruct m as [st w]. unfold afterScreenshotHandler.
  destruct (isTextTerminal config), (enabled (cfg_messages (resolve config)));
    simpl; try (by split; [|intros]).
  split.
  - destruct st; run_monad; try done.
    by destruct (screenshots w !! sd_path details).
  - intros ???? -> Hnone. run_monad. by rewrite Hnone.
Qed.

Lemma forEach_attachments config tasks pretty messages cid sid w :
  isTextTerminal config = true ->
  forEach (createStringAttachmentHandler config) tasks
    {| state := StateStepStarted pretty messages cid sid; world := w |} =
  (Ok tt,
   {| state := StateStepStarted pretty
                 (messages ++ recordedAttachments config cid sid tasks) cid sid;
      world := w |}).
Proof.
  intros Hterm. unfold recordedAttachments. revert messages.
  induction tasks as [|task tasks IH]; intros messages; simpl.
  - unfold ret. destruct (enabled _); by rewrite app_nil_r.
  - unfold bind at 1. unfold createStringAttachmentHandler at 1. rewrite Hterm. simpl.
    destruct (enabled (cfg_messages (resolve config))) eqn:E; run_monad.
    + rewrite IH. rewrite ?E. by rewrite <- app_assoc.
    + rewrite IH. by rewrite ?E.
Qed.

Lemma testStepFinishedHandler_spec config onAfterStep tsf pretty messages cid sid w :
  isTextTerminal config = true ->
  let m1 := snd (emitIfEnabled pretty (testStepFinishedEnvelope tsf)
                   {| state := StateStepStarted pretty messages cid sid; world := w |}) in
  testStepFinishedHandler config onAfterStep tsf
    {| state := StateStepStarted pretty messages cid sid; world := w |} =
  match stepAttachments messages onAfterStep tsf with
  | Ok tasks =>
      (Ok true,
       {| state := StateStepFinished pretty
                     (messages ++ recordedAttachments config cid sid tasks ++
                      [testStepFinishedEnvelope tsf]) cid;
          world := world m1 |})
  | Err e => (Err e, m1)
  end.
Proof.
  intros Hterm. unfold testStepFinishedHandler, stepAttachments. rewrite Hterm. simpl.
  unfold bind at 1. unfold get_state at 1. simpl.
  unfold bind at 1.
  assert (Hemit : forall m : Machine, exists w', emitIfEnabled pretty (testStepFinishedEnvelope tsf) m = (Ok tt, {| state := state m; world := w' |})).
  { intros [st' w0]. destruct pretty; run_monad; eauto. }
  destruct (Hemit {| state := StateStepStarted pretty messages cid sid; world := w |}) as [w' ->].
  simpl. unfold bind at 1, liftResult at 1.
  destruct (resolveTestStep messages tsf) as [[pickleId testStep]|e]; simpl; [|done].
  destruct (ts_pickleStepId testStep) as [psid|]; simpl.
  - unfold bind at 1. unfold bind at 1. unfold liftResult at 1.
    destruct (resolvePickleStep messages pickleId psid) as [resolved|e]; simpl; [|done].
    unfold bind at 1. unfold liftResult at 1.
    destruct (callOnAfterStep onAfterStep _) as [tasks|e]; simpl; [|done].
    rewrite forEach_attachments by done. run_monad. by rewrite <- app_assoc.
  - unfold bind at 1. unfold liftResult at 1. simpl.
    run_monad. unfold recordedAttachments. by destruct (enabled _).
Qed.

Lemma substring_all (s : string) : substring 0 (String.length s) s = s.
Proof. induction s as [|c s IH]; simpl; [done|by rewrite IH]. Qed.

Lemma prefix_append (p rest : string) : String.prefix p (p +:+ rest) = true.
Proof.
  induction p as [|c p IH]; [by destruct rest|].
  change (String c p +:+ rest) with (String c (p +:+ rest)). simpl.
  by destruct (ascii_dec c c).
Qed.

Lemma index_prefix (p s : string) :
  String.prefix p s = true -> index 0 p s = Some 0.
Proof.
  destruct s as [|c s]; simpl.
  - by destruct p.
  - by intros ->.
Qed.

Lemma substring_append (p rest : string) :
  substring (String.length p) (String.length rest) (p +:+ rest) = rest.
Proof.
  induction p as [|c p IH]; [apply substring_all|].
  change (String c p +:+ rest) with (String c (p +:+ rest)). simpl. apply IH.
Qed.

Lemma length_append (p rest : string) :
  String.length (p +:+ rest) = String.length p + String.length rest.
Proof.
  induction p as [|c p IH]; [done|].
  change (String c p +:+ rest) with (String c (p +:+ rest)). simpl. by rewrite IH.
Qed.

Lemma replace_marker (p rest : string) : replace (p +:+ rest) p "" = rest.
Proof.
  unfold replace. rewrite index_prefix by apply prefix_append.
  rewrite length_append. simpl.
  replace (String.length p + String.length rest - String.length p)
    with (String.length rest) by lia.
  replace (substring 0 0 (p +:+ rest)) with "" by (by destruct (p +:+ rest)).
  apply substring_append.
Qed.

Lemma attach_text_base64 body rest tasks :
  attach (DataString body) (Some ("base64:" +:+ rest)) tasks =
  Ok (tasks ++ [{| csa_data := body; csa_mediaType := rest; csa_encoding := BASE64 |}]).
Proof.
  unfold attach, startsWith. simpl.
  by rewrite prefix_append, replace_marker.
Qed.

Lemma stepAttachments_pickleStep messages onAfterStep tsf found psid resolved :
  resolveTestStep messages tsf = Ok found ->
  ts_pickleStepId (snd found) = Some psid ->
  resolvePickleStep messages (fst found) psid = Ok resolved ->
  stepAttachments messages (Some onAfterStep) tsf =
  runAttachCalls (onAfterStep (afterStepOptions tsf resolved)) [].
Proof.
  intros Hfound Hpsid Hresolved. unfold stepAttachments.
  rewrite Hfound. simpl. rewrite Hpsid, Hresolved. done.
Qed.

(** Claim C2, as the code has it. The lookups of test-step-finished by id
    return the first envelope of the buffer that matches, whatever follows
    it. With the first testCaseStarted of the finished step's id, the
    first testCase and the first pickle of that started test case's id, and
    the first gherkinDocument of the pickle's uri, the handler resolves the
    step of that test case and hands the step callback that pickle, its
    step and that document; what the callback attaches is recorded. Of two
    envelopes with one id the earlier wins. *)
Theorem lookup_selects_first_match
    (messages : list Envelope) (tsf : TestStepFinished)
    (started : TestCaseStarted) (case : TestCase) (step : TestStep)
    (psid : string) (scenario : Pickle) (pickleStep : PickleStep)
    (document : GherkinDocument) :
  firstMatch testCaseStarted
    (fun s => tcs_id s = tsf_testCaseStartedId tsf) messages started ->
  firstMatch testCase
    (fun c => tc_id c = tcs_testCaseId started) messages case ->
  List.find (fun s => String.eqb (ts_id s) (tsf_testStepId tsf))
    (tc_testSteps case) = Some step ->
  ts_pickleStepId step = Some psid ->
  firstMatch pickle
    (fun s => pk_id s = tcs_testCaseId started) messages scenario ->
  List.find (fun s => String.eqb (ps_id s) psid) (pk_steps scenario) =
    Some pickleStep ->
  firstMatch gherkinDocument
    (fun d => gd_uri d = Some (pk_uri scenario)) messages document ->
  resolveTestStep messages tsf = Ok (tcs_testCaseId started, step) /\
  resolvePickleStep messages (tcs_testCaseId started) psid =
    Ok (scenario, pickleStep, document) /\
  forall config onAfterStep m pretty cid sid tasks,
    isTextTerminal config = true ->
    state m = StateStepStarted pretty messages cid sid ->
    fst (emitIfEnabled pretty (testStepFinishedEnvelope tsf) m) = Ok tt ->
    runAttachCalls
      (onAfterStep (afterStepOptions tsf (scenario, pickleStep, document))) [] =
      Ok tasks ->
    let r := testStepFinishedHandler config (Some onAfterStep) tsf m in
    fst r = Ok true /\
    state (snd r) =
      StateStepFinished pretty
        (messages ++ recordedAttachments config cid sid tasks ++
         [testStepFinishedEnvelope tsf]) cid.
Proof.
  intros Hstarted Hcase Hstep Hpsid Hscenario Hpickle Hdocument.
  assert (Hfound : resolveTestStep messages tsf = Ok (tcs_testCaseId started, step)).
  { unfold resolveTestStep.
    rewrite (findPayload_firstMatch _ _ _ _ _ (fun x => String.eqb_eq _ _) Hstarted).
    simpl.
    rewrite (findPayload_firstMatch _ _ _ _ _ (fun x => String.eqb_eq _ _) Hcase).
    simpl. by rewrite Hstep. }
  assert (Hresolved : resolvePickleStep messages (tcs_testCaseId started) psid =
                      Ok (scenario, pickleStep, document)).
  { unfold resolvePickleStep.
    rewrite (findPayload_firstMatch _ _ _ _ _ (fun x => String.eqb_eq _ _) Hscenario).
    simpl. rewrite Hpickle. simpl.
    by rewrite (findPayload_firstMatch _ _ _ _ _
                  (fun x => bool_decide_eq_true _) Hdocument). }
  split; [done|]. split; [done|].
  intros config onAfterStep [st w] pretty cid sid tasks Hterm Hst _ Htasks.
  simpl in Hst. subst st.
  rewrite testStepFinishedHandler_spec by done.
  rewrite (stepAttachments_pickleStep _ _ _ _ _ _ Hfound Hpsid Hresolved).
  by rewrite Htasks.
Qed.

(** Claim C4. While a step is open, a text passed to [attach] by the step
    callback is recorded for the open test case and step (when message
    output is enabled; nothing is recorded otherwise): with a media type
    that starts with the base64 marker, the envelope has the media type
    without the marker, encoding BASE64 and the body unchanged; with no
    media type, it has media type text/plain, encoding IDENTITY and the body
    unchanged. *)
Theorem text_attachment_envelope
    config onAfterStep tsf m pretty messages cid sid found psid resolved body :
  isTextTerminal config = true ->
  state m = StateStepStarted pretty messages cid sid ->
  resolveTestStep messages tsf = Ok found ->
  ts_pickleStepId (snd found) = Some psid ->
  resolvePickleStep messages (fst found) psid = Ok resolved ->
  let r := testStepFinishedHandler config (Some onAfterStep) tsf m in
  (forall rest,
     onAfterStep (afterStepOptions tsf resolved) =
       [(DataString body, Some ("base64:" +:+ rest))] ->
     fst r = Ok true /\
     state (snd r) =
       StateStepFinished pretty
         (messages ++
          (if enabled (cfg_messages (resolve config)) then
             [attachmentEnvelope
                {| att_testCaseStartedId := cid; att_testStepId := sid;
                   att_body := body; att_mediaType := rest;
                   att_contentEncoding := BASE64 |}]
           else []) ++
          [testStepFinishedEnvelope tsf]) cid) /\
  (onAfterStep (afterStepOptions tsf resolved) = [(DataString body, None)] ->
   fst r = Ok true /\
   state (snd r) =
     StateStepFinished pretty
       (messages ++
        (if enabled (cfg_messages (resolve config)) then
           [attachmentEnvelope
              {| att_testCaseStartedId := cid; att_testStepId := sid;
                 att_body := body; att_mediaType := "text/plain";
                 att_contentEncoding := IDENTITY |}]
         else []) ++
        [testStepFinishedEnvelope tsf]) cid).
Proof.
  intros Hterm Hstate Hfound Hpsid Hresolved.
  destruct m as [st w]. simpl in Hstate. subst st.
  rewrite testStepFinishedHandler_spec by done.
  rewrite (stepAttachments_pickleStep _ _ _ _ _ _ Hfound Hpsid Hresolved).
  unfold recordedAttachments.
  split.
  - intros rest ->. cbn [runAttachCalls]. rewrite attach_text_base64.
    by destruct (enabled _).
  - intros ->. simpl. by destruct (enabled _).
Qed.

Lemma runAttachCalls_app calls1 calls2 tasks :
  runAttachCalls (calls1 ++ calls2) tasks =
  bindResult (runAttachCalls calls1 tasks) (runAttachCalls calls2).
Proof.
  revert tasks. induction calls1 as [|[data mediaType] calls1 IH]; intros tasks;
    simpl; [done|].
  destruct (attach data mediaType tasks); simpl; [apply IH|done].
Qed.

(** Claim C5. A binary attachment without a media type makes [attach]
    throw: the handler fails with that error and the state, hence the
    buffer, is as it was, also for the attachments the callback made
    before. With a media type the recorded envelope (recorded when message
    output is enabled) has encoding BASE64 and the base64 encoding of the
    bytes as body. *)
Theorem buffer_attachment
    config onAfterStep tsf m pretty messages cid sid found psid resolved bytes :
  isTextTerminal config = true ->
  state m = StateStepStarted pretty messages cid sid ->
  resolveTestStep messages tsf = Ok found ->
  ts_pickleStepId (snd found) = Some psid ->
  resolvePickleStep messages (fst found) psid = Ok resolved ->
  let r := testStepFinishedHandler config (Some onAfterStep) tsf m in
  (forall tasks, attach (DataBuffer bytes) None tasks =
                 Err (Error "Buffer attachments must specify a media type")) /\
  (forall earlier later tasks,
     onAfterStep (afterStepOptions tsf resolved) =
       earlier ++ (DataBuffer bytes, None) :: later ->
     runAttachCalls earlier [] = Ok tasks ->
     fst r = Err (Error "Buffer attachments must specify a media type") /\
     state (snd r) = state m) /\
  (forall mediaType,
     onAfterStep (afterStepOptions tsf resolved) =
       [(DataBuffer bytes, Some mediaType)] ->
     fst r = Ok true /\
     state (snd r) =
       StateStepFinished pretty
         (messages ++
          (if enabled (cfg_messages (resolve config)) then
             [attachmentEnvelope
                {| att_testCaseStartedId := cid; att_testStepId := sid;
                   att_body := Base64.encode bytes; att_mediaType := mediaType;
                   att_contentEncoding := BASE64 |}]
           else []) ++
          [testStepFinishedEnvelope tsf]) cid).
Proof.
  intros Hterm Hstate Hfound Hpsid Hresolved.
  destruct m as [st w]. simpl in Hstate. subst st.
  rewrite testStepFinishedHandler_spec by done.
  rewrite (stepAttachments_pickleStep _ _ _ _ _ _ Hfound Hpsid Hresolved).
  unfold recordedAttachments.
  split; [done|]. split.
  - intros earlier later tasks -> Hearlier.
    rewrite runAttachCalls_app, Hearlier. simpl.
    by destruct pretty.
  - intros mediaType ->. simpl. by destruct (enabled _).
Qed.

Lemma joinLines_records (l : list Envelope) :
  l <> [] -> joinLines l ++ [Newline] = flat_map (fun e => [Json e; Newline]) l.
Proof.
  induction l as [|e l IH]; [done|]. intros _.
  destruct l as [|e' l]; [done|].
  change (joinLines (e :: e' :: l) ++ [Newline])
    with (Json e :: Newline :: (joinLines (e' :: l) ++ [Newline])).
  by rewrite IH.
Qed.

(** Claim C7, as the code has it. For a spec that is not a feature file, or
    outside run mode, the handler returns and leaves state and world as
    they are. For a feature spec in run mode the handler returns, the state
    becomes after-spec and the channel of an enabled live formatter is
    ended. With message output enabled and results present: if a hook
    failure skipped the remaining tests, the files are untouched and the
    notice is logged; otherwise the buffer of a state that has one is
    appended to the message log. With message output disabled or without
    results nothing is written or logged. *)
Theorem afterSpec_flush_or_discard config spec results m :
  let r := afterSpecHandler config spec results m in
  (isTextTerminal config = false \/ isFeature spec = false -> r = (Ok tt, m)) /\
  (isTextTerminal config = true -> isFeature spec = true ->
   fst r = Ok tt /\
   state (snd r) = StateAfterSpec /\
   channels (world (snd r)) =
     match state_pretty (state m) with
     | Some (PrettyEnabled c) =>
         alter (fun ch => {| received := received ch; ended := true |}) c
           (channels (world m))
     | _ => channels (world m)
     end /\
   (forall run,
      enabled (cfg_messages (resolve config)) = true -> results = Some run ->
      wasRemainingSkipped run = true ->
      files (world (snd r)) = files (world m) /\
      console (world (snd r)) = console (world m) ++ [hookFailureNotice spec]) /\
   (forall run buffer,
      enabled (cfg_messages (resolve config)) = true -> results = Some run ->
      wasRemainingSkipped run = false ->
      state_messages (state m) = Some buffer ->
      files (world (snd r)) =
        <[messagesPath config :=
            default [] (files (world m) !! messagesPath config) ++
            joinLines buffer ++ [Newline]]> (files (world m)) /\
      console (world (snd r)) = console (world m)) /\
   (enabled (cfg_messages (resolve config)) = false \/ results = None ->
    files (world (snd r)) = files (world m) /\
    console (world (snd r)) = console (world m))).
Proof.
  split.
  - unfold afterSpecHandler. intros [-> | Hplain]; [done|].
    rewrite Hplain. by destruct (isTextTerminal config).
  - intros Hterm Hfeature. destruct m as [st w]. unfold afterSpecHandler.
    rewrite Hterm, Hfeature. simpl.
    destruct (enabled (cfg_messages (resolve config))) eqn:Hout;
      destruct results as [run|]; [destruct (wasRemainingSkipped run) eqn:Hskip| | |].
    all: destruct st as [| p | p ? | p ? ? | p ? ? ? | p ? ? | p ? |];
      try destruct p as [|c]; run_monad.
    all: repeat split; try done.
    all: try solve [intros; simplify_eq; done | intuition congruence].
Qed.

(** Claim C8, as the code has it. In run mode, from every state in which
    the event is legal, and with the live formatter taking the envelope:
    test-case-started, test-step-started and test-case-finished succeed and
    extend the buffer by exactly the envelope of the event;
    test-step-finished, when its lookups and the step callback succeed,
    extends it by the attachments of the callback followed by the envelope
    of the event, which is the last one, and when they fail it fails with
    their error and keeps the state; a string attachment in step-started
    succeeds and extends the buffer by exactly its attachment envelope when
    message output is enabled and by nothing otherwise; a screenshot in
    step-started extends it by exactly its attachment envelope when message
    output is enabled and the file can be read, and by nothing otherwise. *)
Theorem appended_envelopes config :
  isTextTerminal config = true ->
  (forall data m pretty buffer,
     state m = StateReceivedSpecEnvelopes pretty buffer \/
     state m = StateTestFinished pretty buffer ->
     fst (emitIfEnabled pretty (testCaseStartedEnvelope data) m) = Ok tt ->
     let r := testCaseStartedHandler config data m in
     fst r = Ok true /\
     state (snd r) =
       StateTestStarted pretty (buffer ++ [testCaseStartedEnvelope data])
         (tcs_id data)) /\
  (forall data m pretty buffer cid,
     state m = StateTestStarted pretty buffer cid \/
     state m = StateStepFinished pretty buffer cid \/
     (exists sid, state m = StateStepStarted pretty buffer cid sid) ->
     fst (emitIfEnabled pretty (testStepStartedEnvelope data) m) = Ok tt ->
     let r := testStepStartedHandler config data m in
     fst r = Ok true /\
     state (snd r) =
       StateStepStarted pretty (buffer ++ [testStepStartedEnvelope data])
         cid (tss_testStepId data)) /\
  (forall data m pretty buffer cid,
     state m = StateTestStarted pretty buffer cid \/
     state m = StateStepFinished pretty buffer cid ->
     fst (emitIfEnabled pretty (testCaseFinishedEnvelope data) m) = Ok tt ->
     let r := testCaseFinishedHandler config data m in
     fst r = Ok true /\
     state (snd r) =
       StateTestFinished pretty (buffer ++ [testCaseFinishedEnvelope data])) /\
  (forall onAfterStep data m pretty buffer cid sid,
     state m = StateStepStarted pretty buffer cid sid ->
     fst (emitIfEnabled pretty (testStepFinishedEnvelope data) m) = Ok tt ->
     let r := testStepFinishedHandler config onAfterStep data m in
     match stepAttachments buffer onAfterStep data with
     | Ok tasks =>
         fst r = Ok true /\
         state (snd r) =
           StateStepFinished pretty
             (buffer ++ recordedAttachments config cid sid tasks ++
              [testStepFinishedEnvelope data]) cid /\
         last (buffer ++ recordedAttachments config cid sid tasks ++
               [testStepFinishedEnvelope data]) =
           Some (testStepFinishedEnvelope data)
     | Err e => fst r = Err e /\ state (snd r) = state m
     end) /\
  (forall task m pretty buffer cid sid,
     state m = StateStepStarted pretty buffer cid sid ->
     let r := createStringAttachmentHandler config task m in
     fst r = Ok true /\
     world (snd r) = world m /\
     state (snd r) =
       StateStepStarted pretty
         (buffer ++
          (if enabled (cfg_messages (resolve config))
           then [recordedAttachment cid sid task] else []))
         cid sid) /\
  (forall details m pretty buffer cid sid,
     state m = StateStepStarted pretty buffer cid sid ->
     let r := afterScreenshotHandler config details m in
     fst r = Ok details /\
     world (snd r) = world m /\
     state (snd r) =
       StateStepStarted pretty
         (buffer ++
          match enabled (cfg_messages (resolve config)),
                screenshots (world m) !! sd_path details with
          | true, Some bytes =>
              [attachmentEnvelope
                 {| att_testCaseStartedId := cid; att_testStepId := sid;
                    att_body := Base64.encode bytes;
                    att_mediaType := "image/png";
                    att_contentEncoding := BASE64 |}]
          | _, _ => []
          end)
         cid sid).
Proof.
  intros Hterm. repeat apply conj.
  - intros data [st w] pretty buffer Hst _. simpl in Hst.
    unfold testCaseStartedHandler. rewrite Hterm. simpl.
    by destruct Hst as [-> | ->]; destruct pretty; run_monad.
  - intros data [st w] pretty buffer cid Hst _. simpl in Hst.
    unfold testStepStartedHandler. rewrite Hterm. simpl.
    by destruct Hst as [-> | [-> | [sid ->]]]; destruct pretty; run_monad.
  - intros data [st w] pretty buffer cid Hst _. simpl in Hst.
    unfold testCaseFinishedHandler. rewrite Hterm. simpl.
    by destruct Hst as [-> | ->]; destruct pretty; run_monad.
  - intros onAfterStep data [st w] pretty buffer cid sid Hst _.
    simpl in Hst. subst st. simpl.
    rewrite testStepFinishedHandler_spec by done.
    destruct (stepAttachments buffer onAfterStep data) as [tasks|e] eqn:E; simpl.
    + split; [done|]. split; [done|]. by rewrite app_assoc, last_snoc.
    + split; [done|]. by destruct pretty; run_monad.
  - intros task [st w] pretty buffer cid sid Hst. simpl in Hst. subst st.
    unfold createStringAttachmentHandler. rewrite Hterm. simpl.
    destruct (enabled (cfg_messages (resolve config))); run_monad;
      by rewrite ?app_nil_r.
  - intros details [st w] pretty buffer cid sid Hst. simpl in Hst. subst st.
    unfold afterScreenshotHandler. rewrite Hterm. simpl.
    destruct (enabled (cfg_messages (resolve config))); run_monad;
      [|by rewrite app_nil_r].
    destruct (screenshots w !! sd_path details); simpl; by rewrite ?app_nil_r.
Qed.

Lemma handle_appendsToLog config ev m :
  appendsToLog config m (snd (handle config ev m)).
Proof.
  destruct m as [st w]. unfold appendsToLog.
  destruct ev as [spec|data|data|data|onAfterStep data|data|spec results|details|task];
    simpl.
  - unfold beforeSpecHandler.
    destruct (isTextTerminal config), (isFeature spec),
      (enabled (cfg_messages (resolve config))),
      (cfg_pretty_enabled (resolve config)); simpl; auto.
    all: destruct st; run_monad; auto.
  - unfold specEnvelopesHandler. destruct (isTextTerminal config); simpl; auto.
    destruct st as [| p | p ? | p ? ? | p ? ? ? | p ? ? | p ? |];
      try destruct p; run_monad; rewrite ?emitAll_spec; simpl; auto.
    all: destruct (_ =? _)%Z; simpl; rewrite ?emitAll_spec; simpl; auto.
  - unfold testCaseStartedHandler. destruct (isTextTerminal config); simpl; auto.
    destruct st as [| p | p ? | p ? ? | p ? ? ? | p ? ? | p ? |];
      try destruct p; run_monad; auto.
  - unfold testStepStartedHandler. destruct (isTextTerminal config); simpl; auto.
    destruct st as [| p | p ? | p ? ? | p ? ? ? | p ? ? | p ? |];
      try destruct p; run_monad; auto.
  - destruct (isTextTerminal config) eqn:Hterm.
    + destruct st as [| p | p ? | p ? ? | p buffer cid sid | p ? ? | p ? |].
      all: try (unfold testStepFinishedHandler; rewrite Hterm; run_monad; by auto).
      unfold bind. rewrite testStepFinishedHandler_spec by done.
      destruct (stepAttachments buffer onAfterStep data);
        destruct p; run_monad; auto.
    + unfold testStepFinishedHandler. rewrite Hterm. simpl. auto.
  - unfold testCaseFinishedHandler. destruct (isTextTerminal config); simpl; auto.
    destruct st as [| p | p ? | p ? ? | p ? ? ? | p ? ? | p ? |];
      try destruct p; run_monad; auto.
  - unfold afterSpecHandler.
    destruct (isTextTerminal config), (isFeature spec); simpl; auto.
    destruct (enabled (cfg_messages (resolve config)));
      destruct results as [run|]; [destruct (wasRemainingSkipped run)| | |].
    all: destruct st as [| p | p ? | p ? ? | p ? ? ? | p ? ? | p ? |];
      try destruct p; run_monad; eauto.
  - unfold afterScreenshotHandler.
    destruct (isTextTerminal config), (enabled (cfg_messages (resolve config)));
      simpl; auto.
    destruct st; run_monad; auto.
    destruct (screenshots w !! sd_path details); simpl; auto.
  - unfold createStringAttachmentHandler.
    destruct (isTextTerminal config), (enabled (cfg_messages (resolve config)));
      simpl; auto.
    destruct st; run_monad; auto.
Qed.

Lemma handleAll_log_grows config evs m (header body : list chunk) :
  files (world m) !! messagesPath config = Some (header ++ body) ->
  exists body',
    files (world (handleAll config evs m)) !! messagesPath config =
    Some (header ++ body').
Proof.
  revert m body. induction evs as [|ev evs IH]; intros m body Hlog; simpl.
  - eauto.
  - destruct (handle_appendsToLog config ev m) as [Hsame|[extra Happend]].
    + apply (IH _ body). by rewrite Hsame.
    + apply (IH _ (body ++ extra)).
      rewrite Happend, lookup_insert_eq, Hlog. simpl. by rewrite app_assoc.
Qed.

Lemma beforeRunHandler_log config m :
  isTextTerminal config = true ->
  enabled (cfg_messages (resolve config)) = true ->
  files (world (snd (beforeRunHandler config m))) !! messagesPath config =
  Some (runHeader (world m)).
Proof.
  intros Hterm Hout. destruct m as [st w]. unfold beforeRunHandler.
  rewrite Hterm, Hout. run_monad. by rewrite lookup_insert_eq.
Qed.

Lemma afterRunHandler_log config m content :
  isTextTerminal config = true ->
  enabled (cfg_messages (resolve config)) = true ->
  (enabled (cfg_json (resolve config)) = true ->
   jsonPath config <> messagesPath config) ->
  (enabled (cfg_html (resolve config)) = true ->
   htmlPath config <> messagesPath config) ->
  files (world m) !! messagesPath config = Some content ->
  files (world (snd (afterRunHandler config m))) !! messagesPath config =
  Some (content ++ runFooter (world m)).
Proof.
  intros Hterm Hout Hjson Hhtml Hlog. destruct m as [st w]. simpl in Hlog.
  unfold afterRunHandler. rewrite Hterm, Hout. run_monad. rewrite Hlog. simpl.
  rewrite ?Hlog. unfold runFooter. simpl.
  destruct (enabled (cfg_json (resolve config))) eqn:Ej;
    destruct (enabled (cfg_html (resolve config))) eqn:Eh; simpl;
    rewrite ?lookup_insert_eq; simpl.
  all: repeat match goal with
       | |- context [match ?r with Ok _ => _ | Err _ => _ end] =>
           destruct r; simpl
       | |- context [match ?o with Some _ => _ | None => _ end] =>
           destruct o; simpl
       end.
  all: rewrite ?lookup_insert_ne by auto; rewrite ?lookup_insert_eq; try done.
Qed.

(** Claim C9. In run mode with message output enabled, and the reports,
    where enabled, written to other paths than the log: run start leaves a
    log of exactly the meta record and the run-started record, whatever was
    there before; after any sequence of events the log still starts with
    these two; run end appends the run-finished record, which carries the
    timestamp and no success flag. *)
Theorem run_log_shape config evs m :
  isTextTerminal config = true ->
  enabled (cfg_messages (resolve config)) = true ->
  (enabled (cfg_json (resolve config)) = true ->
   jsonPath config <> messagesPath config) ->
  (enabled (cfg_html (resolve config)) = true ->
   htmlPath config <> messagesPath config) ->
  let started := snd (beforeRunHandler config m) in
  let ran := handleAll config evs started in
  let finished := snd (afterRunHandler config ran) in
  files (world started) !! messagesPath config = Some (runHeader (world m)) /\
  exists body,
    files (world ran) !! messagesPath config =
      Some (runHeader (world m) ++ body) /\
    files (world finished) !! messagesPath config =
      Some (runHeader (world m) ++ body ++ runFooter (world ran)).
Proof.
  intros Hterm Hout Hjson Hhtml started ran finished.
  assert (Hstart : files (world started) !! messagesPath config =
                   Some (runHeader (world m) ++ [])).
  { rewrite app_nil_r. by apply beforeRunHandler_log. }
  split; [by rewrite app_nil_r in Hstart|].
  destruct (handleAll_log_grows config evs started _ _ Hstart) as [body Hran].
  exists body. split; [exact Hran|].
  pose proof (afterRunHandler_log _ _ _ Hterm Hout Hjson Hhtml Hran) as Hend.
  rewrite <- app_assoc in Hend. exact Hend.
Qed.
End Properties.

(** ** The properties on the sample data *)

Section OnSamples.

#[local] Existing Instance Sample.imports.

Lemma reload_keeps_earlier_buffer_witness :
  isTextTerminal Sample.configPretty = true /\
  (let m := Sample.liveMachine
              (StateTestFinished (PrettyEnabled 0) Sample.firstCaseOver) in
   let m1 := snd (testCaseStartedHandler Sample.configPretty Sample.startedAgain m) in
   let m2 := snd (testStepStartedHandler Sample.configPretty Sample.stepStarted m1) in
   let r := specEnvelopesHandler Sample.configPretty Sample.reloadedData m2 in
   fst r = Ok true /\
   state (snd r) =
     StateReceivedSpecEnvelopes (PrettyEnabled 1) Sample.firstCaseOver /\
   channels (world (snd r)) !! 1 =
     Some {| received := Sample.reloadedData; ended := false |}).
Proof.
  split; [reflexivity|].
  destruct (reload_keeps_earlier_buffer Sample.configPretty Sample.startedAgain
              Sample.stepStarted Sample.reloadedData
              (Sample.liveMachine
                 (StateTestFinished (PrettyEnabled 0) Sample.firstCaseOver))
              (PrettyEnabled 0) Sample.firstCaseOver eq_refl (or_intror eq_refl))
    as (Hret & Hstate & Hchannel).
  split; [exact Hret|]. split; [exact Hstate|].
  exact (Hchannel 0 eq_refl).
Defined.

Lemma reload_buffer_not_replaced :
  (let m := Sample.machine (StateReceivedSpecEnvelopes PrettyDisabled Sample.scenarioData) in
   let m1 := snd (testCaseStartedHandler Sample.config Sample.started m) in
   let m2 := snd (testStepStartedHandler Sample.config Sample.stepStarted m1) in
   let r := specEnvelopesHandler Sample.config Sample.reloadedData m2 in
   state_messages (state (snd r)) = Some Sample.scenarioData /\
   state_messages (state (snd r)) <> Some Sample.reloadedData) /\
  (let m := Sample.machine (StateTestFinished PrettyDisabled Sample.firstCaseOver) in
   let m1 := snd (testCaseStartedHandler Sample.config Sample.startedAgain m) in
   let m2 := snd (testStepStartedHandler Sample.config Sample.stepStarted m1) in
   let r := specEnvelopesHandler Sample.config Sample.reloadedData m2 in
   exists buffer,
     state_messages (state (snd r)) = Some buffer /\
     testCaseStartedEnvelope Sample.started ∈ buffer).
Proof.
  split.
  - split; [reflexivity|]. vm_compute. discriminate.
  - exists Sample.firstCaseOver. split; [reflexivity|].
    unfold Sample.firstCaseOver. set_solver.
Qed.

Lemma lookup_selects_first_match_witness :
  resolveTestStep Sample.startedTwice Sample.stepFinished =
    Ok ("pickle-1", Sample.firstStep) /\
  resolvePickleStep Sample.startedTwice "pickle-1" "ps-1" =
    Ok (Sample.scenario, Sample.firstPickleStep, Sample.document) /\
  (let r := testStepFinishedHandler Sample.config
              (Some Sample.attachScenarioName) Sample.stepFinished
              (Sample.machine
                 (StateStepStarted PrettyDisabled Sample.startedTwice
                    "tcs-1" "step-1")) in
   fst r = Ok true /\
   state (snd r) =
     StateStepFinished PrettyDisabled
       (Sample.startedTwice ++
        [attachmentEnvelope
           {| att_testCaseStartedId := "tcs-1"; att_testStepId := "step-1";
              att_body := "a user logs in";
              att_mediaType := "text/plain";
              att_contentEncoding := IDENTITY |};
         testStepFinishedEnvelope Sample.stepFinished]) "tcs-1").
Proof.
  assert (Hstarted : firstMatch testCaseStarted
                       (fun s => tcs_id s = "tcs-1") Sample.startedTwice
                       Sample.started).
  { exists (Sample.scenarioData ++
            [pickleEnvelope Sample.otherScenario;
             testCaseEnvelope Sample.otherCase]),
      (testCaseStartedEnvelope Sample.started),
      [testCaseStartedEnvelope Sample.startedAgain;
       testStepStartedEnvelope Sample.stepStarted].
    repeat split; repeat constructor; intros s H; discriminate H. }
  assert (Hcase : firstMatch testCase (fun c => tc_id c = "pickle-1")
                    Sample.startedTwice Sample.case).
  { exists [gherkinDocumentEnvelope Sample.document;
            pickleEnvelope Sample.scenario],
      (testCaseEnvelope Sample.case),
      [pickleEnvelope Sample.otherScenario; testCaseEnvelope Sample.otherCase;
       testCaseStartedEnvelope Sample.started;
       testCaseStartedEnvelope Sample.startedAgain;
       testStepStartedEnvelope Sample.stepStarted].
    repeat split; repeat constructor; intros s H; discriminate H. }
  assert (Hscenario : firstMatch pickle (fun s => pk_id s = "pickle-1")
                        Sample.startedTwice Sample.scenario).
  { exists [gherkinDocumentEnvelope Sample.document],
      (pickleEnvelope Sample.scenario),
      [testCaseEnvelope Sample.case;
       pickleEnvelope Sample.otherScenario; testCaseEnvelope Sample.otherCase;
       testCaseStartedEnvelope Sample.started;
       testCaseStartedEnvelope Sample.startedAgain;
       testStepStartedEnvelope Sample.stepStarted].
    repeat split; repeat constructor; intros s H; discriminate H. }
  assert (Hdocument : firstMatch gherkinDocument
                        (fun d => gd_uri d = Some "cypress/e2e/login.feature")
                        Sample.startedTwice Sample.document).
  { exists [], (gherkinDocumentEnvelope Sample.document),
      [pickleEnvelope Sample.scenario; testCaseEnvelope Sample.case;
       pickleEnvelope Sample.otherScenario; testCaseEnvelope Sample.otherCase;
       testCaseStartedEnvelope Sample.started;
       testCaseStartedEnvelope Sample.startedAgain;
       testStepStartedEnvelope Sample.stepStarted].
    repeat split; constructor. }
  destruct (lookup_selects_first_match Sample.startedTwice Sample.stepFinished
              Sample.started Sample.case Sample.firstStep "ps-1"
              Sample.scenario Sample.firstPickleStep Sample.document
              Hstarted Hcase eq_refl eq_refl Hscenario eq_refl Hdocument)
    as (Hfound & Hresolved & Hhandler).
  split; [exact Hfound|]. split; [exact Hresolved|].
  exact (Hhandler Sample.config Sample.attachScenarioName
           (Sample.machine
              (StateStepStarted PrettyDisabled Sample.startedTwice
                 "tcs-1" "step-1"))
           PrettyDisabled "tcs-1" "step-1"
           [{| csa_data := "a user logs in"; csa_mediaType := "text/plain";
               csa_encoding := IDENTITY |}]
           eq_refl eq_refl eq_refl eq_refl).
Defined.

Lemma lookup_not_last_match :
  findLastPayload testCaseStarted (fun s => String.eqb (tcs_id s) "tcs-1")
    Sample.startedTwice = Some Sample.startedAgain /\
  findPayload testCaseStarted (fun s => String.eqb (tcs_id s) "tcs-1")
    Sample.startedTwice <> Some Sample.startedAgain /\
  (exists step,
     resolveTestStep Sample.startedTwice Sample.stepFinished =
     Ok ("pickle-1", step)) /\
  tcs_testCaseId Sample.startedAgain = "pickle-2" /\
  (let r := testStepFinishedHandler Sample.config
              (Some Sample.attachScenarioName) Sample.stepFinished
              (Sample.machine
                 (StateStepStarted PrettyDisabled Sample.startedTwice
                    "tcs-1" "step-1")) in
   state_messages (state (snd r)) =
     Some (Sample.startedTwice ++
           [attachmentEnvelope
              {| att_testCaseStartedId := "tcs-1"; att_testStepId := "step-1";
                 att_body := pk_name Sample.scenario;
                 att_mediaType := "text/plain";
                 att_contentEncoding := IDENTITY |};
            testStepFinishedEnvelope Sample.stepFinished]) /\
   pk_name Sample.scenario <> pk_name Sample.otherScenario).
Proof.
  split; [reflexivity|]. split; [vm_compute; discriminate|].
  split; [eexists; reflexivity|]. split; [reflexivity|].
  split; [reflexivity | vm_compute; discriminate].
Qed.

Lemma illegal_event_raises_state_error_witness :
  isTextTerminal Sample.config = true /\
  passesGuards Sample.config (TestStepFinishedEvent None Sample.stepFinished) = true /\
  legalFrom (TestStepFinishedEvent None Sample.stepFinished)
    (state_name (state (Sample.machine StateInitial))) = false /\
  handle Sample.config (TestStepFinishedEvent None Sample.stepFinished)
    (Sample.machine StateInitial) =
  (Err (createStateError "testStepFinishedHandler" "initial"),
   Sample.machine StateInitial).
Proof.
  split; [reflexivity|]. split; [reflexivity|]. split; [reflexivity|].
  exact (proj1 (proj1 (illegal_event_raises_state_error Sample.config
                         (TestStepFinishedEvent None Sample.stepFinished)
                         (Sample.machine StateInitial) eq_refl eq_refl)
                  eq_refl)).
Defined.

Lemma illegal_event_passes_a_guard :
  (isTextTerminal Sample.configPrettyOnly = true /\
   legalFrom (StringAttachmentRequested
                {| csa_data := "note"; csa_mediaType := "text/plain";
                   csa_encoding := IDENTITY |})
     (state_name StateInitial) = false /\
   handle Sample.configPrettyOnly
     (StringAttachmentRequested
        {| csa_data := "note"; csa_mediaType := "text/plain";
           csa_encoding := IDENTITY |})
     (Sample.machine StateInitial) = (Ok tt, Sample.machine StateInitial)) /\
  (isTextTerminal Sample.config = true /\
   legalFrom (SpecAboutToStart Sample.plainSpec)
     (state_name (StateTestFinished PrettyDisabled Sample.firstCaseOver)) = false /\
   handle Sample.config (SpecAboutToStart Sample.plainSpec)
     (Sample.machine (StateTestFinished PrettyDisabled Sample.firstCaseOver)) =
   (Ok tt, Sample.machine (StateTestFinished PrettyDisabled Sample.firstCaseOver))).
Proof. repeat split. Qed.

Lemma text_attachment_envelope_witness :
  isTextTerminal Sample.config = true /\
  (let r := testStepFinishedHandler Sample.config
              (Some (Sample.attachText "QUJD" (Some "base64:image/png")))
              Sample.stepFinished (Sample.machine Sample.stepOpen) in
   fst r = Ok true /\
   state (snd r) =
     StateStepFinished PrettyDisabled
       (Sample.openBuffer ++
        [attachmentEnvelope
           {| att_testCaseStartedId := "tcs-1"; att_testStepId := "step-1";
              att_body := "QUJD"; att_mediaType := "image/png";
              att_contentEncoding := BASE64 |};
         testStepFinishedEnvelope Sample.stepFinished]) "tcs-1") /\
  (let r := testStepFinishedHandler Sample.config
              (Some (Sample.attachText "QUJD" None))
              Sample.stepFinished (Sample.machine Sample.stepOpen) in
   fst r = Ok true /\
   state (snd r) =
     StateStepFinished PrettyDisabled
       (Sample.openBuffer ++
        [attachmentEnvelope
           {| att_testCaseStartedId := "tcs-1"; att_testStepId := "step-1";
              att_body := "QUJD"; att_mediaType := "text/plain";
              att_contentEncoding := IDENTITY |};
         testStepFinishedEnvelope Sample.stepFinished]) "tcs-1").
Proof.
  split; [reflexivity|]. split.
  - exact (proj1 (text_attachment_envelope Sample.config
                    (Sample.attachText "QUJD" (Some "base64:image/png"))
                    Sample.stepFinished (Sample.machine Sample.stepOpen)
                    PrettyDisabled Sample.openBuffer "tcs-1" "step-1"
                    ("pickle-1", Sample.firstStep) "ps-1"
                    (Sample.scenario, Sample.firstPickleStep, Sample.document)
                    "QUJD" eq_refl eq_refl eq_refl eq_refl eq_refl)
                 "image/png" eq_refl).
  - exact (proj2 (text_attachment_envelope Sample.config
                    (Sample.attachText "QUJD" None)
                    Sample.stepFinished (Sample.machine Sample.stepOpen)
                    PrettyDisabled Sample.openBuffer "tcs-1" "step-1"
                    ("pickle-1", Sample.firstStep) "ps-1"
                    (Sample.scenario, Sample.firstPickleStep, Sample.document)
                    "QUJD" eq_refl eq_refl eq_refl eq_refl eq_refl)
                 eq_refl).
Defined.

Lemma buffer_attachment_witness :
  isTextTerminal Sample.config = true /\
  (let r := testStepFinishedHandler Sample.config
              (Some (fun _ => [(DataString "seen", None);
                               (DataBuffer Sample.png, None)]))
              Sample.stepFinished (Sample.machine Sample.stepOpen) in
   fst r = Err (Error "Buffer attachments must specify a media type") /\
   state (snd r) = Sample.stepOpen) /\
  (let r := testStepFinishedHandler Sample.config
              (Some (fun _ => [(DataBuffer Sample.png, Some "image/png")]))
              Sample.stepFinished (Sample.machine Sample.stepOpen) in
   fst r = Ok true /\
   state (snd r) =
     StateStepFinished PrettyDisabled
       (Sample.openBuffer ++
        [attachmentEnvelope
           {| att_testCaseStartedId := "tcs-1"; att_testStepId := "step-1";
              att_body := "QUJD"; att_mediaType := "image/png";
              att_contentEncoding := BASE64 |};
         testStepFinishedEnvelope Sample.stepFinished]) "tcs-1").
Proof.
  split; [reflexivity|]. split.
  - exact (proj1 (proj2 (buffer_attachment Sample.config
                    (fun _ => [(DataString "seen", None);
                               (DataBuffer Sample.png, None)])
                    Sample.stepFinished (Sample.machine Sample.stepOpen)
                    PrettyDisabled Sample.openBuffer "tcs-1" "step-1"
                    ("pickle-1", Sample.firstStep) "ps-1"
                    (Sample.scenario, Sample.firstPickleStep, Sample.document)
                    Sample.png eq_refl eq_refl eq_refl eq_refl eq_refl))
                 [(DataString "seen", None)] []
                 [{| csa_data := "seen"; csa_mediaType := "text/plain";
                     csa_encoding := IDENTITY |}]
                 eq_refl eq_refl).
  - exact (proj2 (proj2 (buffer_attachment Sample.config
                    (fun _ => [(DataBuffer Sample.png, Some "image/png")])
                    Sample.stepFinished (Sample.machine Sample.stepOpen)
                    PrettyDisabled Sample.openBuffer "tcs-1" "step-1"
                    ("pickle-1", Sample.firstStep) "ps-1"
                    (Sample.scenario, Sample.firstPickleStep, Sample.document)
                    Sample.png eq_refl eq_refl eq_refl eq_refl eq_refl))
                 "image/png" eq_refl).
Defined.

Lemma screenshot_only_in_step_started_witness :
  (let r := afterScreenshotHandler Sample.config Sample.screenshot
              (Sample.machine Sample.stepOpen) in
   fst r = Ok Sample.screenshot /\
   world (snd r) = Sample.world0 /\
   state (snd r) =
     StateStepStarted PrettyDisabled
       (Sample.openBuffer ++
        [attachmentEnvelope
           {| att_testCaseStartedId := "tcs-1";
              att_testStepId := "step-1";
              att_body := Base64.encode Sample.png;
              att_mediaType := "image/png";
              att_contentEncoding := BASE64 |}])
       "tcs-1" "step-1") /\
  (let r := afterScreenshotHandler Sample.config Sample.screenshot
              (Sample.machine
                 (StateTestStarted PrettyDisabled Sample.scenarioData "tcs-1")) in
   fst r = Ok Sample.screenshot /\
   snd r = Sample.machine (StateTestStarted PrettyDisabled Sample.scenarioData "tcs-1")).
Proof.
  split.
  - exact (screenshot_only_in_step_started Sample.config Sample.screenshot
             (Sample.machine Sample.stepOpen)).
  - destruct (screenshot_only_in_step_started Sample.config Sample.screenshot
                (Sample.machine
                   (StateTestStarted PrettyDisabled Sample.scenarioData "tcs-1")))
      as (Hret & _ & Hsame).
    split; [exact Hret | exact Hsame].
Defined.

Lemma screenshot_read_failure_is_silent_witness :
  state (Sample.machine Sample.stepOpen) = Sample.stepOpen /\
  screenshots (world (Sample.machine Sample.stepOpen))
    !! sd_path Sample.missingScreenshot = None /\
  fst (afterScreenshotHandler Sample.config Sample.missingScreenshot
         (Sample.machine Sample.stepOpen)) = Ok Sample.missingScreenshot /\
  snd (afterScreenshotHandler Sample.config Sample.missingScreenshot
         (Sample.machine Sample.stepOpen)) = Sample.machine Sample.stepOpen.
Proof.
  split; [reflexivity|]. split; [reflexivity|].
  destruct (screenshot_read_failure_is_silent Sample.config
              Sample.missingScreenshot (Sample.machine Sample.stepOpen))
    as [Hret Hsame].
  split; [exact Hret|].
  exact (Hsame PrettyDisabled Sample.openBuffer "tcs-1" "step-1" eq_refl eq_refl).
Defined.

Lemma afterSpec_flush_or_discard_witness :
  isTextTerminal Sample.config = true /\
  isFeature Sample.feature = true /\
  (let r := afterSpecHandler Sample.config Sample.feature (Some Sample.passed)
              (Sample.machine (StateTestFinished PrettyDisabled Sample.firstCaseOver)) in
   state (snd r) = StateAfterSpec /\
   files (world (snd r)) =
     <[messagesPath Sample.config :=
         default [] (files Sample.world0 !! messagesPath Sample.config) ++
         joinLines Sample.firstCaseOver ++ [Newline]]> (files Sample.world0)) /\
  (let r := afterSpecHandler Sample.config Sample.feature (Some Sample.failedHook)
              (Sample.machine (StateTestFinished PrettyDisabled Sample.firstCaseOver)) in
   state (snd r) = StateAfterSpec /\
   files (world (snd r)) = files Sample.world0 /\
   console (world (snd r)) = [hookFailureNotice Sample.feature]).
Proof.
  split; [reflexivity|]. split; [reflexivity|]. split.
  - destruct (proj2 (afterSpec_flush_or_discard Sample.config Sample.feature
                       (Some Sample.passed)
                       (Sample.machine
                          (StateTestFinished PrettyDisabled Sample.firstCaseOver)))
                eq_refl eq_refl)
      as (_ & Hstate & _ & _ & Hflush & _).
    split; [exact Hstate|].
    exact (proj1 (Hflush Sample.passed Sample.firstCaseOver
                    eq_refl eq_refl eq_refl eq_refl)).
  - destruct (proj2 (afterSpec_flush_or_discard Sample.config Sample.feature
                       (Some Sample.failedHook)
                       (Sample.machine
                          (StateTestFinished PrettyDisabled Sample.firstCaseOver)))
                eq_refl eq_refl)
      as (_ & Hstate & _ & Hdiscard & _).
    split; [exact Hstate|].
    exact (Hdiscard Sample.failedHook eq_refl eq_refl eq_refl).
Defined.

Lemma afterSpec_passes_other_specs :
  (let r := afterSpecHandler Sample.config Sample.plainSpec (Some Sample.passed)
              (Sample.machine StateInitial) in
   fst r = Ok tt /\ state (snd r) = StateInitial /\ state (snd r) <> StateAfterSpec) /\
  (let m := Sample.machine (StateTestFinished PrettyDisabled Sample.firstCaseOver) in
   let r := afterSpecHandler Sample.config Sample.plainSpec (Some Sample.passed) m in
   enabled (cfg_messages (resolve Sample.config)) = true /\
   wasRemainingSkipped Sample.passed = false /\
   state_messages (state m) = Some Sample.firstCaseOver /\
   snd r = m /\ files (world (snd r)) !! messagesPath Sample.config = None) /\
  (let m := Sample.machine (StateTestFinished PrettyDisabled Sample.firstCaseOver) in
   let r := afterSpecHandler Sample.configInteractive Sample.feature
              (Some Sample.passed) m in
   snd r = m /\ state (snd r) <> StateAfterSpec).
Proof. repeat split; discriminate. Qed.

Lemma appended_envelopes_witness :
  isTextTerminal Sample.config = true /\
  (let r := testCaseStartedHandler Sample.config Sample.started
              (Sample.machine
                 (StateReceivedSpecEnvelopes PrettyDisabled Sample.scenarioData)) in
   fst r = Ok true /\
   state (snd r) =
     StateTestStarted PrettyDisabled
       (Sample.scenarioData ++ [testCaseStartedEnvelope Sample.started]) "tcs-1") /\
  (let r := testStepStartedHandler Sample.configPretty Sample.stepStarted
              (Sample.liveMachine
                 (StateTestStarted (PrettyEnabled 0)
                    (Sample.scenarioData ++ [testCaseStartedEnvelope Sample.started])
                    "tcs-1")) in
   fst r = Ok true /\
   state (snd r) =
     StateStepStarted (PrettyEnabled 0) Sample.openBuffer "tcs-1" "step-1") /\
  (let r := testStepFinishedHandler Sample.config
              (Some (Sample.attachText "note" None)) Sample.stepFinished
              (Sample.machine Sample.stepOpen) in
   fst r = Ok true /\
   state (snd r) =
     StateStepFinished PrettyDisabled
       (Sample.openBuffer ++
        [recordedAttachment "tcs-1" "step-1" Sample.note;
         testStepFinishedEnvelope Sample.stepFinished]) "tcs-1") /\
  (let r := testCaseFinishedHandler Sample.config Sample.caseFinished
              (Sample.machine
                 (StateStepFinished PrettyDisabled
                    (Sample.openBuffer ++
                     [testStepFinishedEnvelope Sample.stepFinished]) "tcs-1")) in
   fst r = Ok true /\
   state (snd r) =
     StateTestFinished PrettyDisabled
       (Sample.openBuffer ++
        [testStepFinishedEnvelope Sample.stepFinished;
         testCaseFinishedEnvelope Sample.caseFinished])) /\
  (let r := createStringAttachmentHandler Sample.config Sample.note
              (Sample.machine Sample.stepOpen) in
   fst r = Ok true /\
   state (snd r) =
     StateStepStarted PrettyDisabled
       (Sample.openBuffer ++ [recordedAttachment "tcs-1" "step-1" Sample.note])
       "tcs-1" "step-1") /\
  (let r := afterScreenshotHandler Sample.config Sample.missingScreenshot
              (Sample.machine Sample.stepOpen) in
   fst r = Ok Sample.missingScreenshot /\
   state (snd r) =
     StateStepStarted PrettyDisabled (Sample.openBuffer ++ []) "tcs-1" "step-1").
Proof.
  split; [reflexivity|].
  destruct (appended_envelopes Sample.config eq_refl)
    as (Hcase & _ & Hover & Hstep & Hnote & Hshot).
  destruct (appended_envelopes Sample.configPretty eq_refl)
    as (_ & Hopen & _).
  split.
  { exact (Hcase Sample.started
             (Sample.machine
                (StateReceivedSpecEnvelopes PrettyDisabled Sample.scenarioData))
             PrettyDisabled Sample.scenarioData (or_introl eq_refl) eq_refl). }
  split.
  { exact (Hopen Sample.stepStarted
             (Sample.liveMachine
                (StateTestStarted (PrettyEnabled 0)
                   (Sample.scenarioData ++ [testCaseStartedEnvelope Sample.started])
                   "tcs-1"))
             (PrettyEnabled 0)
             (Sample.scenarioData ++ [testCaseStartedEnvelope Sample.started])
             "tcs-1" (or_introl eq_refl) eq_refl). }
  split.
  { destruct (Hstep (Some (Sample.attachText "note" None)) Sample.stepFinished
                (Sample.machine Sample.stepOpen) PrettyDisabled
                Sample.openBuffer "tcs-1" "step-1" eq_refl eq_refl)
      as (Hret & Hstate & _).
    split; [exact Hret | exact Hstate]. }
  split.
  { exact (Hover Sample.caseFinished
             (Sample.machine
                (StateStepFinished PrettyDisabled
                   (Sample.openBuffer ++
                    [testStepFinishedEnvelope Sample.stepFinished]) "tcs-1"))
             PrettyDisabled
             (Sample.openBuffer ++ [testStepFinishedEnvelope Sample.stepFinished])
             "tcs-1" (or_intror eq_refl) eq_refl). }
  split.
  { destruct (Hnote Sample.note (Sample.machine Sample.stepOpen) PrettyDisabled
                Sample.openBuffer "tcs-1" "step-1" eq_refl)
      as (Hret & _ & Hstate).
    split; [exact Hret | exact Hstate]. }
  destruct (Hshot Sample.missingScreenshot (Sample.machine Sample.stepOpen)
              PrettyDisabled Sample.openBuffer "tcs-1" "step-1" eq_refl)
    as (Hret & _ & Hstate).
  split; [exact Hret | exact Hstate].
Defined.

Lemma step_finished_appends_attachments_too :
  (let r := testStepFinishedHandler Sample.config
              (Some (Sample.attachText "QUJD" (Some "base64:image/png")))
              Sample.stepFinished (Sample.machine Sample.stepOpen) in
   fst r = Ok true /\
   state_messages (state (snd r)) =
     Some (Sample.openBuffer ++
           [attachmentEnvelope
              {| att_testCaseStartedId := "tcs-1"; att_testStepId := "step-1";
                 att_body := "QUJD"; att_mediaType := "image/png";
                 att_contentEncoding := BASE64 |};
            testStepFinishedEnvelope Sample.stepFinished]) /\
   ~ exists e, state_messages (state (snd r)) = Some (Sample.openBuffer ++ [e])) /\
  (let r := afterScreenshotHandler Sample.config Sample.missingScreenshot
              (Sample.machine Sample.stepOpen) in
   fst r = Ok Sample.missingScreenshot /\
   state_messages (state (snd r)) = Some Sample.openBuffer) /\
  (let r := createStringAttachmentHandler Sample.configPrettyOnly Sample.note
              (Sample.machine Sample.stepOpen) in
   fst r = Ok true /\
   state_messages (state (snd r)) = Some Sample.openBuffer).
Proof.
  split; [|repeat split].
  split; [reflexivity|]. split; [reflexivity|].
  intros [e He]. vm_compute in He. discriminate He.
Qed.

Lemma run_log_shape_witness :
  isTextTerminal Sample.configReports = true /\
  enabled (cfg_messages (resolve Sample.configReports)) = true /\
  jsonPath Sample.configReports <> messagesPath Sample.configReports /\
  htmlPath Sample.configReports <> messagesPath Sample.configReports /\
  (let started := snd (beforeRunHandler Sample.configReports
                         (Sample.machine StateInitial)) in
   let ran := handleAll Sample.configReports Sample.oneScenario started in
   let finished := snd (afterRunHandler Sample.configReports ran) in
   files (world started) !! messagesPath Sample.configReports =
     Some (runHeader Sample.world0) /\
   exists body,
     files (world ran) !! messagesPath Sample.configReports =
       Some (runHeader Sample.world0 ++ body) /\
     files (world finished) !! messagesPath Sample.configReports =
       Some (runHeader Sample.world0 ++ body ++ runFooter (world ran))).
Proof.
  split; [reflexivity|]. split; [reflexivity|].
  split; [vm_compute; discriminate|]. split; [vm_compute; discriminate|].
  apply (run_log_shape Sample.configReports Sample.oneScenario
           (Sample.machine StateInitial) eq_refl eq_refl).
  - intros _. vm_compute. discriminate.
  - intros _. vm_compute. discriminate.
Defined.
End OnSamples.

(** * Further properties of the handlers *)

Section Lifecycle.
Context {imports : Imports}.

Ltac run_monad :=
  cbv beta iota delta
    [bind ret throw get_state set_state get_world set_world liftResult
     emitIfEnabled emit endStream console_log createPretty createTimestamp
     fs_rm fs_writeFile fs_writeFileData fs_appendFile fs_exists fs_readFile
     readScreenshot];
  simpl.

(** ** Interactive mode *)

Lemma handle_interactive config ev m :
  isTextTerminal config = false -> handle config ev m = (Ok tt, m).
Proof.
  intros Hterm. destruct ev; simpl;
    unfold beforeSpecHandler, specEnvelopesHandler, testCaseStartedHandler,
      testStepStartedHandler, testStepFinishedHandler, testCaseFinishedHandler,
      afterSpecHandler, afterScreenshotHandler, createStringAttachmentHandler;
    by rewrite Hterm.
Qed.

(** Property X1. Outside run mode no handler does anything: a whole run, from run start
    over any events to run end, leaves state and world as they were and no
    handler throws. *)
Theorem interactive_mode_is_noop config evs m :
  isTextTerminal config = false ->
  beforeRunHandler config m = (Ok tt, m) /\
  handleAll config evs m = m /\
  Forall (fun ev => handle config ev m = (Ok tt, m)) evs /\
  afterRunHandler config m = (Ok tt, m).
Proof.
  intros Hterm. split; [|split; [|split]].
  - unfold beforeRunHandler. by rewrite Hterm.
  - induction evs as [|ev evs IH]; simpl; [done|].
    by rewrite handle_interactive.
  - apply Forall_forall. intros ev _. by apply handle_interactive.
  - unfold afterRunHandler. by rewrite Hterm.
Qed.

(** ** The ids of the open test case and step *)

Lemma lastPayload_snoc_Some {A B} (f : A -> option B) l e b :
  f e = Some b -> lastPayload f (l ++ [e]) = Some b.
Proof.
  intros He. unfold lastPayload. rewrite omap_app. simpl. rewrite He.
  apply last_snoc.
Qed.

Lemma lastPayload_app_None {A B} (f : A -> option B) l l' :
  Forall (fun e => f e = None) l' -> lastPayload f (l ++ l') = lastPayload f l.
Proof.
  intros Hnone. unfold lastPayload. rewrite omap_app.
  replace (omap f l') with (@nil B); [by rewrite app_nil_r|].
  induction Hnone as [|e l' He _ IH]; simpl; [done|]. by rewrite He.
Qed.

Lemma recordedAttachments_no_started config cid sid tasks :
  Forall (fun e => testCaseStarted e = None)
    (recordedAttachments config cid sid tasks).
Proof.
  unfold recordedAttachments. destruct (enabled _); [|constructor].
  apply Forall_forall. intros e [task [-> _]]%list_elem_of_fmap. done.
Qed.

Lemma recordedAttachments_no_step config cid sid tasks :
  Forall (fun e => testStepStarted e = None)
    (recordedAttachments config cid sid tasks).
Proof.
  unfold recordedAttachments. destruct (enabled _); [|constructor].
  apply Forall_forall. intros e [task [-> _]]%list_elem_of_fmap. done.
Qed.

Lemma handle_openCaseRecorded config ev m :
  openCaseRecorded (state m) ->
  openCaseRecorded (state (snd (handle config ev m))).
Proof.
  intros Hinv. destruct (isTextTerminal config) eqn:Hterm;
    [|by rewrite handle_interactive].
  destruct m as [st w]. simpl in Hinv.
  destruct ev as [spec|data|data|data|onAfterStep data|data|spec results|details|task];
    simpl.
  - unfold beforeSpecHandler. rewrite Hterm.
    destruct (isFeature spec), (enabled (cfg_messages (resolve config))),
      (cfg_pretty_enabled (resolve config)); simpl; try done.
    all: destruct st; run_monad; done.
  - unfold specEnvelopesHandler. rewrite Hterm. simpl.
    destruct st as [| p | p ? | p ? ? | p ? ? ? | p ? ? | p ? |];
      try destruct p; run_monad; rewrite ?emitAll_spec; simpl; try done.
    all: destruct (_ =? _)%Z; simpl; rewrite ?emitAll_spec; simpl; done.
  - unfold testCaseStartedHandler. rewrite Hterm. simpl.
    destruct st as [| p | p ? | p ? ? | p ? ? ? | p ? ? | p ? |];
      try destruct p; run_monad; try done.
    all: by erewrite lastPayload_snoc_Some.
  - unfold testStepStartedHandler. rewrite Hterm. simpl.
    destruct st as [| p | p ? | p ? ? | p ? ? ? | p ? ? | p ? |];
      try destruct p; run_monad; try done.
    all: rewrite (lastPayload_app_None testCaseStarted) by (by repeat constructor).
    all: erewrite (lastPayload_snoc_Some testStepStarted) by done.
    all: split; [first [exact Hinv | exact (proj1 Hinv)]|done].
  - destruct st as [| p | p ? | p ? ? | p buffer cid sid | p ? ? | p ? |].
    all: try (unfold testStepFinishedHandler; rewrite Hterm; by run_monad).
    unfold bind. rewrite testStepFinishedHandler_spec by done.
    destruct (stepAttachments buffer onAfterStep data);
      destruct p; run_monad; try done.
    all: rewrite (lastPayload_app_None testCaseStarted);
      [exact (proj1 Hinv)|].
    all: apply Forall_app; split;
      [apply recordedAttachments_no_started | by repeat constructor].
  - unfold testCaseFinishedHandler. rewrite Hterm. simpl.
    destruct st as [| p | p ? | p ? ? | p ? ? ? | p ? ? | p ? |];
      try destruct p; run_monad; done.
  - unfold afterSpecHandler. rewrite Hterm.
    destruct (isFeature spec); simpl; [|done].
    destruct (enabled (cfg_messages (resolve config)));
      destruct results as [run|]; [destruct (wasRemainingSkipped run)| | |].
    all: destruct st as [| p | p ? | p ? ? | p ? ? ? | p ? ? | p ? |];
      try destruct p; run_monad; done.
  - unfold afterScreenshotHandler. rewrite Hterm.
    destruct (enabled (cfg_messages (resolve config))); simpl; [|done].
    destruct st; run_monad; try done.
    destruct (screenshots w !! sd_path details); simpl; [|done].
    rewrite (lastPayload_app_None testCaseStarted) by (by repeat constructor).
    by rewrite (lastPayload_app_None testStepStarted) by (by repeat constructor).
  - unfold createStringAttachmentHandler. rewrite Hterm.
    destruct (enabled (cfg_messages (resolve config))); simpl; [|done].
    destruct st; run_monad; try done.
    rewrite (lastPayload_app_None testCaseStarted) by (by repeat constructor).
    by rewrite (lastPayload_app_None testStepStarted) by (by repeat constructor).
Qed.

Lemma handleAll_openCaseRecorded config evs m :
  openCaseRecorded (state m) ->
  openCaseRecorded (state (handleAll config evs m)).
Proof.
  revert m. induction evs as [|ev evs IH]; intros m Hinv; simpl; [done|].
  by apply IH, handle_openCaseRecorded.
Qed.

(** Property X3. Whatever events arrive in whatever order, and whether or not their
    handlers throw, the ids in the state are those of the test case and of
    the test step started last: what an attachment is recorded under. *)
Theorem reachable_states_record_open_case config evs w :
  openCaseRecorded
    (state (handleAll config evs {| state := StateInitial; world := w |})).
Proof. by apply handleAll_openCaseRecorded. Qed.

Lemma lastPayload_Some_split {A B} (f : A -> option B) l b :
  lastPayload f l = Some b ->
  exists before e after,
    l = before ++ e :: after /\ f e = Some b /\
    Forall (fun e' => f e' = None) after.
Proof.
  induction l as [|x l IH] using rev_ind; [done|].
  destruct (f x) as [b'|] eqn:Hx.
  - rewrite (lastPayload_snoc_Some f l x b') by done. intros [= <-].
    exists l, x, []. by repeat split.
  - rewrite lastPayload_app_None by (by repeat constructor).
    intros (before & e & after & -> & He & Hafter)%IH.
    exists before, e, (after ++ [x]). rewrite <- app_assoc. repeat split; [done|].
    apply Forall_app. split; [done|by repeat constructor].
Qed.

(** Property X4. In a state reached from the initial one, the reload path of
    [specEnvelopesHandler] always finds the started test case: it never
    throws, and what it keeps of the buffer is what was there before the
    envelope of the open test case. *)
Theorem reload_finds_open_case config evs w data pretty messages cid sid :
  isTextTerminal config = true ->
  state (handleAll config evs {| state := StateInitial; world := w |}) =
    StateStepStarted pretty messages cid sid ->
  let r := specEnvelopesHandler config data
             (handleAll config evs {| state := StateInitial; world := w |}) in
  exists before e started after,
    messages = before ++ e :: after /\
    testCaseStarted e = Some started /\ tcs_id started = cid /\
    Forall (fun e' => testCaseStarted e' = None) after /\
    fst r = Ok true /\
    state_messages (state (snd r)) = Some before.
Proof.
  intros Hterm Hstate.
  pose proof (reachable := handleAll_openCaseRecorded config evs
                {| state := StateInitial; world := w |} I).
  destruct (handleAll config evs _) as [st w']. simpl in Hstate, reachable |- *.
  subst st. destruct reachable as [Hcase _].
  destruct (lastPayload testCaseStarted messages) as [started|] eqn:Hlast;
    [|done].
  injection Hcase as Hid.
  destruct (lastPayload_Some_split _ _ _ Hlast)
    as (before & e & after & -> & He & Hafter).
  exists before, e, started, after.
  assert (Hfound : bool_decide (is_Some (testCaseStarted e)) = true)
    by (by rewrite He).
  assert (Hrest : Forall
         (fun y => bool_decide (is_Some (testCaseStarted y)) = false) after)
    by (eapply Forall_impl; [exact Hafter|]; by intros y ->).
  assert (Hcut : slice0 (before ++ e :: after)
            (findLastIndex
               (fun message => bool_decide (is_Some (testCaseStarted message)))
               (before ++ e :: after)) = before)
    by (by apply slice0_findLastIndex).
  assert (Hidx : (findLastIndex
               (fun message => bool_decide (is_Some (testCaseStarted message)))
               (before ++ e :: after) =? -1)%Z = false).
  { unfold findLastIndex. rewrite findLastIndex_from_last by (done || lia).
    apply Z.eqb_neq. lia. }
  split; [done|]. split; [done|]. split; [done|]. split; [done|].
  unfold specEnvelopesHandler. rewrite Hterm.
  destruct pretty; run_monad; rewrite Hidx, ?Hcut; simpl;
    rewrite ?emitAll_spec; simpl; rewrite ?Hcut; done.
Qed.

(** ** The live formatter channels *)

Lemma isOpen_emit (g : Channel -> list Envelope) k chs i :
  isOpen (alter (fun c => {| received := g c; ended := ended c |}) k chs) i <->
  isOpen chs i.
Proof.
  unfold isOpen. destruct (decide (k = i)) as [->|Hne].
  - rewrite list_lookup_alter_eq. destruct (chs !! i) as [ch|]; simpl.
    + split; intros (ch' & [= <-] & Hopen); eauto.
    + split; intros (ch' & [=] & _).
  - by rewrite list_lookup_alter_ne.
Qed.

Lemma isOpen_end k chs i :
  isOpen (alter (fun c => {| received := received c; ended := true |}) k chs) i <->
  isOpen chs i /\ i <> k.
Proof.
  unfold isOpen. destruct (decide (k = i)) as [->|Hne].
  - rewrite list_lookup_alter_eq. destruct (chs !! i) as [ch|]; simpl.
    + split; [intros (ch' & [= <-] & [=])|intros [_ []]; done].
    + split; [intros (ch' & [=] & _)|intros [(ch' & [=] & _) _]].
  - rewrite list_lookup_alter_ne by done. intuition (try congruence).
Qed.

Lemma isOpen_new chs i :
  isOpen (chs ++ [{| received := []; ended := false |}]) i <->
  isOpen chs i \/ i = length chs.
Proof.
  unfold isOpen. destruct (decide (i < length chs)) as [Hlt|Hge].
  - rewrite lookup_app_l by done. split; [eauto|].
    intros [H| ->]; [done|lia].
  - rewrite lookup_app_r by lia.
    rewrite (lookup_ge_None_2 chs i) by lia.
    destruct (decide (i = length chs)) as [->|Hne].
    + rewrite Nat.sub_diag. simpl. split; [eauto|]. intros _. eauto.
    + destruct (i - length chs) as [|n] eqn:E; [lia|]. simpl.
      split; [intros (ch & [=] & _)|intros [(ch & [=] & _)|]; done].
Qed.

Lemma handle_oneOpenChannel config ev m :
  oneOpenChannel m -> oneOpenChannel (snd (handle config ev m)).
Proof.
  intros Hinv. destruct (isTextTerminal config) eqn:Hterm;
    [|by rewrite handle_interactive].
  destruct m as [st w]. unfold oneOpenChannel in *. simpl in Hinv.
  destruct ev as [spec|data|data|data|onAfterStep data|data|spec results|details|task];
    simpl.
  - unfold beforeSpecHandler. rewrite Hterm.
    destruct (isFeature spec), (enabled (cfg_messages (resolve config))),
      (cfg_pretty_enabled (resolve config)); simpl; try done.
    all: destruct st; run_monad; try done.
    all: intros i; rewrite ?isOpen_new; specialize (Hinv i); simpl in Hinv;
      intuition (try congruence).
  - unfold specEnvelopesHandler. rewrite Hterm. simpl.
    destruct st as [| p | p ? | p ? ? | p ? ? ? | p ? ? | p ? |];
      try destruct p; run_monad; rewrite ?emitAll_spec; simpl; try done.
    all: try (destruct (_ =? _)%Z; simpl; rewrite ?emitAll_spec; simpl; try done).
    all: intros i; rewrite ?isOpen_emit, ?isOpen_new, ?length_alter, ?isOpen_end;
      pose proof (Hinv i) as Hi; simpl in Hi; try done.
    pose proof (Hinv channel) as Hc. simpl in Hc.
    assert (channel < length (channels w)).
    { destruct (proj2 Hc eq_refl) as (ch & Hch & _). by eapply lookup_lt_Some. }
    split; [intros [[Hopen Hne]| ->]; [|done]|intros [= <-]; by right].
    apply Hi in Hopen. congruence.
  - unfold testCaseStartedHandler. rewrite Hterm. simpl.
    destruct st as [| p | p ? | p ? ? | p ? ? ? | p ? ? | p ? |];
      try destruct p; run_monad; try done.
    all: intros i; rewrite ?isOpen_emit; exact (Hinv i).
  - unfold testStepStartedHandler. rewrite Hterm. simpl.
    destruct st as [| p | p ? | p ? ? | p ? ? ? | p ? ? | p ? |];
      try destruct p; run_monad; try done.
    all: intros i; rewrite ?isOpen_emit; exact (Hinv i).
  - destruct st as [| p | p ? | p ? ? | p buffer cid sid | p ? ? | p ? |].
    all: try (unfold testStepFinishedHandler; rewrite Hterm; by run_monad).
    unfold bind. rewrite testStepFinishedHandler_spec by done.
    destruct (stepAttachments buffer onAfterStep data);
      destruct p; run_monad; try done.
    all: intros i; rewrite ?isOpen_emit; exact (Hinv i).
  - unfold testCaseFinishedHandler. rewrite Hterm. simpl.
    destruct st as [| p | p ? | p ? ? | p ? ? ? | p ? ? | p ? |];
      try destruct p; run_monad; try done.
    all: intros i; rewrite ?isOpen_emit; exact (Hinv i).
  - unfold afterSpecHandler. rewrite Hterm.
    destruct (isFeature spec); simpl; [|done].
    destruct (enabled (cfg_messages (resolve config)));
      destruct results as [run|]; [destruct (wasRemainingSkipped run)| | |].
    all: destruct st as [| p | p ? | p ? ? | p ? ? ? | p ? ? | p ? |];
      try destruct p; run_monad.
    all: intros i; rewrite ?isOpen_end; specialize (Hinv i); simpl in Hinv;
      intuition (try congruence).
  - unfold afterScreenshotHandler. rewrite Hterm.
    destruct (enabled (cfg_messages (resolve config))); simpl; [|done].
    destruct st; run_monad; try done.
    by destruct (screenshots w !! sd_path details).
  - unfold createStringAttachmentHandler. rewrite Hterm.
    destruct (enabled (cfg_messages (resolve config))); simpl; [|done].
    by destruct st; run_monad.
Qed.

(** Property X5. From a start in which no channel is open, over any
    events whose handlers all return: the only channel that is open is the
    one the state holds. Every channel a spec start or a reload opens is
    ended by the reload or the spec end that follows, and the state never
    holds a channel that was ended. *)
Theorem one_open_channel config evs w :
  Forall (fun ch => ended ch = true) (channels w) ->
  allHandled config evs {| state := StateInitial; world := w |} ->
  oneOpenChannel (handleAll config evs {| state := StateInitial; world := w |}).
Proof.
  intros Hended _.
  assert (Hstart : oneOpenChannel {| state := StateInitial; world := w |}).
  { intros i. simpl. split; [|done]. intros (ch & Hch & Hopen).
    rewrite Forall_forall in Hended.
    rewrite (Hended ch) in Hopen; [done|]. by eapply list_elem_of_lookup_2. }
  revert Hstart. generalize {| state := StateInitial; world := w |}.
  induction evs as [|ev evs IH]; intros m Hinv; simpl; [done|].
  by apply IH, handle_oneOpenChannel.
Qed.

(** ** What reaches the files, and when *)

Lemma handle_keeps_files config ev m :
  (forall spec results, ev <> SpecFinished spec results) ->
  files (world (snd (handle config ev m))) = files (world m).
Proof.
  intros Hev. destruct (isTextTerminal config) eqn:Hterm;
    [|by rewrite handle_interactive].
  destruct m as [st w].
  destruct ev as [spec|data|data|data|onAfterStep data|data|spec results|details|task];
    simpl.
  - unfold beforeSpecHandler. rewrite Hterm.
    destruct (isFeature spec), (enabled (cfg_messages (resolve config))),
      (cfg_pretty_enabled (resolve config)); simpl; try done.
    all: by destruct st; run_monad.
  - unfold specEnvelopesHandler. rewrite Hterm. simpl.
    destruct st as [| p | p ? | p ? ? | p ? ? ? | p ? ? | p ? |];
      try destruct p; run_monad; rewrite ?emitAll_spec; simpl; try done.
    all: by destruct (_ =? _)%Z; simpl; rewrite ?emitAll_spec; simpl.
  - unfold testCaseStartedHandler. rewrite Hterm. simpl.
    by destruct st as [| p | p ? | p ? ? | p ? ? ? | p ? ? | p ? |];
      try destruct p; run_monad.
  - unfold testStepStartedHandler. rewrite Hterm. simpl.
    by destruct st as [| p | p ? | p ? ? | p ? ? ? | p ? ? | p ? |];
      try destruct p; run_monad.
  - destruct st as [| p | p ? | p ? ? | p buffer cid sid | p ? ? | p ? |].
    all: try (unfold testStepFinishedHandler; rewrite Hterm; by run_monad).
    unfold bind. rewrite testStepFinishedHandler_spec by done.
    by destruct (stepAttachments buffer onAfterStep data);
      destruct p; run_monad.
  - unfold testCaseFinishedHandler. rewrite Hterm. simpl.
    by destruct st as [| p | p ? | p ? ? | p ? ? ? | p ? ? | p ? |];
      try destruct p; run_monad.
  - by destruct (Hev spec results).
  - unfold afterScreenshotHandler. rewrite Hterm.
    destruct (enabled (cfg_messages (resolve config))); simpl; [|done].
    destruct st; run_monad; try done.
    by destruct (screenshots w !! sd_path details).
  - unfold createStringAttachmentHandler. rewrite Hterm.
    destruct (enabled (cfg_messages (resolve config))); simpl; [|done].
    by destruct st; run_monad.
Qed.

(** Property X7. Between spec start and spec end nothing is written to any file: the
    envelopes of a spec stay in the buffer, whatever the events, until
    spec-finished commits or drops them. *)
Theorem nothing_written_before_spec_end config evs m :
  Forall (fun ev => forall spec results, ev <> SpecFinished spec results) evs ->
  files (world (handleAll config evs m)) = files (world m).
Proof.
  intros Hevs. revert m.
  induction Hevs as [|ev evs Hev _ IH]; intros m; simpl; [done|].
  rewrite IH. by apply handle_keeps_files.
Qed.

(** Property X14. Run start touches the message log and nothing else: the log is replaced
    by the two header records, every other file and the state stay. With
    message output disabled it touches nothing, so a log of an earlier run
    stays where it is. *)
Theorem beforeRun_resets_only_the_log config m :
  isTextTerminal config = true ->
  let r := beforeRunHandler config m in
  (enabled (cfg_messages (resolve config)) = false -> r = (Ok tt, m)) /\
  (enabled (cfg_messages (resolve config)) = true ->
   fst r = Ok tt /\
   state (snd r) = state m /\
   files (world (snd r)) =
     <[messagesPath config := runHeader (world m)]> (files (world m)) /\
   (forall path, path <> messagesPath config ->
      files (world (snd r)) !! path = files (world m) !! path)).
Proof.
  intros Hterm. destruct m as [st w]. unfold beforeRunHandler. rewrite Hterm.
  split; intros Hout; rewrite Hout; [done|]. run_monad.
  split; [done|]. split; [done|].
  rewrite insert_delete_eq. split; [done|].
  intros path Hpath. by rewrite lookup_insert_ne.
Qed.

(** Property X15. Run end without a message log, or with no output enabled, does nothing:
    no record is appended and no report is derived. *)
Theorem afterRun_without_log_is_noop config m :
  isTextTerminal config = true ->
  files (world m) !! messagesPath config = None \/
  (enabled (cfg_messages (resolve config)) = false /\
   enabled (cfg_json (resolve config)) = false /\
   enabled (cfg_html (resolve config)) = false) ->
  afterRunHandler config m = (Ok tt, m).
Proof.
  intros Hterm Hwhy. destruct m as [st w]. unfold afterRunHandler. rewrite Hterm.
  simpl.
  destruct Hwhy as [Hmissing|(-> & -> & ->)]; [|done].
  simpl in Hmissing.
  destruct (negb (enabled (cfg_messages (resolve config))) &&
            negb (enabled (cfg_json (resolve config))) &&
            negb (enabled (cfg_html (resolve config)))); [done|].
  run_monad. by rewrite Hmissing.
Qed.

(** ** Reading the log back *)

Lemma records_app l l' : records (l ++ l') = records l ++ records l'.
Proof. apply flat_map_app. Qed.

Lemma trim_line_end (content : list chunk) e :
  dropNewlines (content ++ [Json e; Newline]) = content ++ [Json e; Newline] ->
  trim (content ++ [Json e; Newline]) = content ++ [Json e].
Proof.
  intros Hfront. unfold trim. rewrite Hfront, rev_app_distr. simpl.
  by rewrite rev_involutive.
Qed.

Lemma joinLines_snoc_records l e : joinLines (l ++ [e]) = records l ++ [Json e].
Proof.
  induction l as [|x l IH]; [done|].
  change ((x :: l) ++ [e]) with (x :: (l ++ [e])).
  destruct (l ++ [e]) as [|y l'] eqn:E; [by destruct l|].
  change (joinLines (x :: y :: l')) with (Json x :: Newline :: joinLines (y :: l')).
  by rewrite IH.
Qed.

Lemma splitLines_records l rest :
  splitLines (records l ++ rest) = map (fun e => [Json e]) l ++ splitLines rest.
Proof. induction l as [|e l IH]; simpl; [done|]. by rewrite IH. Qed.

Lemma parseAll_lines l : parseAll (map (fun e => [Json e]) l) = Ok l.
Proof. induction l as [|e l IH]; simpl; [done|]. by rewrite IH. Qed.

Lemma parseAll_blank_line l lines :
  parseAll (map (fun e => [Json e]) l ++ [] :: lines) = Err SyntaxError.
Proof. induction l as [|e l IH]; simpl; [done|]. by rewrite IH. Qed.

Lemma parse_records (l : list Envelope) :
  l <> [] -> parseAll (splitLines (trim (records l))) = Ok l.
Proof.
  intros Hl.
  destruct l as [|e l] using rev_ind; [done|]. clear IHl Hl.
  rewrite records_app.
  change (records [e]) with [Json e; Newline].
  rewrite trim_line_end by (by destruct l).
  rewrite splitLines_records. simpl.
  pose proof (parseAll_lines (l ++ [e])) as Hparse.
  by rewrite map_app in Hparse.
Qed.

Lemma parse_blank_line (l l' : list Envelope) e :
  l <> [] ->
  parseAll (splitLines (trim (records l ++ Newline :: records (l' ++ [e])))) =
  Err SyntaxError.
Proof.
  intros Hl. rewrite records_app.
  change (records [e]) with [Json e; Newline].
  replace (records l ++ Newline :: records l' ++ [Json e; Newline])
    with ((records l ++ Newline :: records l') ++ [Json e; Newline])
    by (by rewrite <- !app_assoc).
  rewrite trim_line_end by (by destruct l).
  rewrite <- app_assoc, splitLines_records. simpl.
  apply parseAll_blank_line.
Qed.

(** Property X16. What the handlers write can be read back: a log of one record per line
    parses, after the trim and the split on line ends, to the same
    envelopes in the same order. The empty log does not parse, and neither
    does a log with an empty line between records. *)
Theorem log_round_trip (l l' : list Envelope) :
  (l <> [] -> parseAll (splitLines (trim (records l))) = Ok l) /\
  parseAll (splitLines (trim (records []))) = Err SyntaxError /\
  (l <> [] -> l' <> [] ->
   parseAll (splitLines (trim (records l ++ Newline :: records l'))) =
   Err SyntaxError).
Proof.
  split; [apply parse_records|]. split; [done|].
  intros Hl Hl'. destruct l' as [|e l'] using rev_ind; [done|].
  by apply parse_blank_line.
Qed.

Local Opaque trim splitLines parseAll.

(** Property X17. Run end with the JSON report enabled: the formatter is
    given the envelopes of the log in order, the run-finished record
    included when message output is enabled, and its output becomes the
    report. If it returns nothing, the check of the output lets it pass and
    the write of the report throws a type error. The log has its last
    record either way. *)
Theorem afterRun_json_report config m (l : list Envelope) :
  isTextTerminal config = true ->
  enabled (cfg_json (resolve config)) = true ->
  enabled (cfg_html (resolve config)) = false ->
  jsonPath config <> messagesPath config ->
  files (world m) !! messagesPath config = Some (records l) ->
  enabled (cfg_messages (resolve config)) = true \/ l <> [] ->
  let input :=
    if enabled (cfg_messages (resolve config))
    then l ++ [testRunFinishedEnvelope
                 {| trf_timestamp := clock (world m); trf_success := None |}]
    else l in
  let r := afterRunHandler config m in
  state (snd r) = state m /\
  files (world (snd r)) !! messagesPath config = Some (records input) /\
  match createJsonFormatter input with
  | Some report =>
      fst r = Ok tt /\
      files (world (snd r)) !! jsonPath config = Some [Raw report]
  | None => fst r = Err TypeError
  end.
Proof.
  intros Hterm Hjson Hhtml Hpath Hlog Hinput. destruct m as [st w].
  simpl in Hlog |- *.
  unfold afterRunHandler. rewrite Hterm, Hjson, Hhtml.
  destruct (enabled (cfg_messages (resolve config))) eqn:Hout; run_monad;
    rewrite Hlog; simpl; rewrite ?Hlog; simpl; rewrite ?lookup_insert_eq; simpl.
  - change [Json (testRunFinishedEnvelope
                    {| trf_timestamp := clock w; trf_success := None |}); Newline]
      with (records [testRunFinishedEnvelope
                       {| trf_timestamp := clock w; trf_success := None |}]).
    rewrite <- records_app, parse_records by (by destruct l). simpl.
    destruct (createJsonFormatter _) as [report|]; simpl.
    + rewrite lookup_insert_ne by done. by rewrite !lookup_insert_eq.
    + by rewrite lookup_insert_eq.
  - destruct Hinput as [|Hl]; [done|].
    rewrite parse_records by done. simpl.
    destruct (createJsonFormatter _) as [report|]; simpl.
    + rewrite lookup_insert_ne by done. by rewrite !lookup_insert_eq.
    + done.
Qed.

(** Property X18. An empty buffer is flushed as an empty line. With records before it in
    the log, the JSON report of the run then fails on that line with a
    syntax error and is not written. *)
Theorem empty_buffer_breaks_json_report config spec run m (l : list Envelope) :
  isTextTerminal config = true ->
  isFeature spec = true ->
  enabled (cfg_messages (resolve config)) = true ->
  enabled (cfg_json (resolve config)) = true ->
  jsonPath config <> messagesPath config ->
  wasRemainingSkipped run = false ->
  state_messages (state m) = Some [] ->
  files (world m) !! messagesPath config = Some (records l) ->
  l <> [] ->
  let flushed := snd (afterSpecHandler config spec (Some run) m) in
  let r := afterRunHandler config flushed in
  files (world flushed) !! messagesPath config = Some (records l ++ [Newline]) /\
  fst r = Err SyntaxError /\
  files (world (snd r)) !! jsonPath config = files (world m) !! jsonPath config.
Proof.
  intros Hterm Hfeature Hout Hjson Hpath Hskip Hbuffer Hlog Hl.
  destruct m as [st w]. simpl in Hbuffer, Hlog |- *.
  unfold afterSpecHandler, afterRunHandler.
  rewrite Hterm, Hfeature, Hout, Hjson, Hskip. simpl.
  destruct st as [| p | p ? | p ? ? | p ? ? ? | p ? ? | p ? |];
    simpl in Hbuffer; simplify_eq; destruct p; run_monad; rewrite ?Hlog; simpl;
    rewrite ?lookup_insert_eq; simpl.
  all: split; [done|].
  all: rewrite ?insert_insert_eq, ?lookup_insert_eq; simpl.
  all: rewrite <- app_assoc; simpl.
  all: change [Json (testRunFinishedEnvelope
                    {| trf_timestamp := clock w; trf_success := None |}); Newline]
      with (records ([] ++ [testRunFinishedEnvelope
                       {| trf_timestamp := clock w; trf_success := None |}])).
  all: rewrite parse_blank_line by done; simpl.
  all: by rewrite lookup_insert_ne.
Qed.

Local Transparent trim splitLines parseAll.

(** ** Lookups that fail, and hook steps *)

Lemma findPayload_None {A B} (f : A -> option B) (p : B -> bool) (l : list A) :
  Forall (fun x => forall b, f x = Some b -> p b = false) l ->
  findPayload f p l = None.
Proof.
  intros Hnone. unfold findPayload.
  induction Hnone as [|x l Hx _ IH]; simpl; [done|].
  destruct (f x) as [b|] eqn:E; [|done]. simpl. by rewrite (Hx b).
Qed.

(** Property X9. With the live formatter disabled, a step that finishes
    while one is open and whose cross-references do not resolve makes the
    handler throw the error of the lookup that found nothing and leaves
    state and world as they were; the callback is not called. When no
    started test case of the buffer has the id, the error is the one of
    the first lookup. *)
Theorem missing_cross_reference_fails config onAfterStep tsf m messages cid sid :
  isTextTerminal config = true ->
  state m = StateStepStarted PrettyDisabled messages cid sid ->
  (Forall (fun envelope => forall started,
             testCaseStarted envelope = Some started ->
             tcs_id started <> tsf_testCaseStartedId tsf) messages ->
   resolveTestStep messages tsf =
     Err (createError "Expected to find a testCaseStarted")) /\
  (forall e,
     resolveTestStep messages tsf = Err e ->
     testStepFinishedHandler config onAfterStep tsf m = (Err e, m) /\
     e ∈ [ createError "Expected to find a testCaseStarted";
           createError "Expected to find a testCase";
           createError "Expected to find a testStep" ]) /\
  (forall found psid e,
     resolveTestStep messages tsf = Ok found ->
     ts_pickleStepId (snd found) = Some psid ->
     resolvePickleStep messages (fst found) psid = Err e ->
     testStepFinishedHandler config onAfterStep tsf m = (Err e, m) /\
     e ∈ [ createError "Expected to find a pickle";
           createError "Expected to find a pickleStep";
           createError "Expected to find a gherkinDocument" ]).
Proof.
  intros Hterm Hstate. destruct m as [st w]. simpl in Hstate. subst st.
  split; [|split].
  - intros Hnone. unfold resolveTestStep.
    rewrite findPayload_None; [done|].
    eapply Forall_impl; [exact Hnone|]. intros envelope H started Hs.
    apply String.eqb_neq. by apply H.
  - intros e Hfail. rewrite testStepFinishedHandler_spec by done.
    unfold stepAttachments. rewrite Hfail. simpl. split; [done|].
    unfold resolveTestStep, assertAndReturn, bindResult in Hfail.
    repeat match type of Hfail with
           | context [match ?o with Some _ => _ | None => _ end] =>
               destruct o eqn:?
           end; simplify_eq; set_solver.
  - intros found psid e Hfound Hpsid Hfail.
    rewrite testStepFinishedHandler_spec by done.
    unfold stepAttachments. rewrite Hfound. simpl. rewrite Hpsid, Hfail. simpl.
    split; [done|].
    unfold resolvePickleStep, assertAndReturn, bindResult in Hfail.
    repeat match type of Hfail with
           | context [match ?o with Some _ => _ | None => _ end] =>
               destruct o eqn:?
           end; simplify_eq; set_solver.
Qed.

(** Property X10. A test step without a pickle step finishes without the
    callback, whether or not it names a hook: with the live formatter
    taking the envelope, the handler returns and the buffer grows by the
    step-finished envelope alone, whatever callback was passed. *)
Theorem hook_step_skips_callback
    config onAfterStep tsf m pretty messages cid sid found :
  isTextTerminal config = true ->
  state m = StateStepStarted pretty messages cid sid ->
  fst (emitIfEnabled pretty (testStepFinishedEnvelope tsf) m) = Ok tt ->
  resolveTestStep messages tsf = Ok found ->
  ts_pickleStepId (snd found) = None ->
  let r := testStepFinishedHandler config onAfterStep tsf m in
  fst r = Ok true /\
  state (snd r) =
    StateStepFinished pretty (messages ++ [testStepFinishedEnvelope tsf]) cid.
Proof.
  intros Hterm Hstate _ Hfound Hstep. destruct m as [st w]. simpl in Hstate.
  subst st. rewrite testStepFinishedHandler_spec by done.
  unfold stepAttachments. rewrite Hfound. simpl. rewrite Hstep. simpl.
  unfold recordedAttachments. by destruct (enabled _).
Qed.

(** ** Transitions *)

(** Property X2. In run mode, an event whose handler looks at the state and returns has
    arrived in a state the table allows it in, and has led to the state the
    table names: the handlers accept nothing else. *)
Theorem handled_event_follows_the_table config ev m :
  isTextTerminal config = true ->
  passesGuards config ev = true ->
  fst (handle config ev m) = Ok tt ->
  legalFrom ev (state_name (state m)) = true /\
  state_name (state (snd (handle config ev m))) =
    targetState ev (state_name (state m)).
Proof.
  intros Hterm Hguards. destruct m as [st w].
  destruct ev as [spec|data|data|data|onAfterStep data|data|spec results|details|task];
    simpl in Hguards |- *.
  - unfold beforeSpecHandler. rewrite Hterm.
    apply andb_true_iff in Hguards as [-> Hout]. simpl.
    destruct (enabled (cfg_messages (resolve config))),
      (cfg_pretty_enabled (resolve config)); simpl in Hout |- *; try done.
    all: by destruct st; run_monad.
  - unfold specEnvelopesHandler. rewrite Hterm. simpl.
    destruct st as [| p | p ? | p ? ? | p ? ? ? | p ? ? | p ? |];
      try destruct p; run_monad; rewrite ?emitAll_spec; simpl; try done.
    all: by destruct (_ =? _)%Z; simpl; rewrite ?emitAll_spec; simpl.
  - unfold testCaseStartedHandler. rewrite Hterm. simpl.
    by destruct st as [| p | p ? | p ? ? | p ? ? ? | p ? ? | p ? |];
      try destruct p; run_monad.
  - unfold testStepStartedHandler. rewrite Hterm. simpl.
    by destruct st as [| p | p ? | p ? ? | p ? ? ? | p ? ? | p ? |];
      try destruct p; run_monad.
  - destruct st as [| p | p ? | p ? ? | p buffer cid sid | p ? ? | p ? |].
    all: try (unfold testStepFinishedHandler; rewrite Hterm; by run_monad).
    unfold bind. rewrite testStepFinishedHandler_spec by done.
    by destruct (stepAttachments buffer onAfterStep data);
      destruct p; run_monad.
  - unfold testCaseFinishedHandler. rewrite Hterm. simpl.
    by destruct st as [| p | p ? | p ? ? | p ? ? ? | p ? ? | p ? |];
      try destruct p; run_monad.
  - unfold afterSpecHandler. rewrite Hterm.
    destruct (isFeature spec); simpl; [|done].
    destruct (enabled (cfg_messages (resolve config)));
      destruct results as [run|]; [destruct (wasRemainingSkipped run)| | |].
    all: by destruct st as [| p | p ? | p ? ? | p ? ? ? | p ? ? | p ? |];
      try destruct p; run_monad.
  - unfold afterScreenshotHandler. rewrite Hterm.
    destruct (enabled (cfg_messages (resolve config))); simpl; [|done].
    destruct st; run_monad; try done.
    by destruct (screenshots w !! sd_path details).
  - unfold createStringAttachmentHandler. rewrite Hterm, Hguards. simpl.
    by destruct st; run_monad.
Qed.

(** Property X12. A spec start that is repeated changes nothing the second time: the
    state stays and no second channel is opened. *)
Theorem spec_start_is_idempotent config spec m :
  let once := snd (handle config (SpecAboutToStart spec) m) in
  snd (handle config (SpecAboutToStart spec) once) = once.
Proof.
  destruct m as [st w]. simpl. unfold beforeSpecHandler.
  destruct (isTextTerminal config), (isFeature spec),
    (enabled (cfg_messages (resolve config))),
    (cfg_pretty_enabled (resolve config)); simpl; try done.
  all: by destruct st; run_monad.
Qed.

(** Property X13. The scenario data of a spec that is about to start become the buffer as
    they are, and the live formatter, when enabled, is sent each of them in
    the order received; files and console are left alone. *)
Theorem scenario_data_fill_the_buffer config data m pretty :
  isTextTerminal config = true ->
  state m = StateBeforeSpec pretty ->
  let r := specEnvelopesHandler config data m in
  fst r = Ok true /\
  state (snd r) = StateReceivedSpecEnvelopes pretty data /\
  files (world (snd r)) = files (world m) /\
  console (world (snd r)) = console (world m) /\
  channels (world (snd r)) =
    match pretty with
    | PrettyEnabled c =>
        alter (fun ch => {| received := received ch ++ data; ended := ended ch |})
          c (channels (world m))
    | PrettyDisabled => channels (world m)
    end.
Proof.
  intros Hterm Hstate. destruct m as [st w]. simpl in Hstate. subst st.
  unfold specEnvelopesHandler. rewrite Hterm.
  destruct pretty; run_monad; rewrite ?emitAll_spec; done.
Qed.

(** ** The attachments of a step callback *)

Lemma attach_accumulates data mediaType tasks task :
  attach data mediaType [] = Ok [task] ->
  attach data mediaType tasks = Ok (tasks ++ [task]).
Proof.
  unfold attach. destruct data as [s|bytes|]; [|destruct mediaType|]; try done.
  - destruct (startsWith _ _); simpl; by intros [= <-].
  - simpl. by intros [= <-].
Qed.

Lemma runAttachCalls_in_order calls tasks earlier :
  Forall2 (fun call task => attach call.1 call.2 [] = Ok [task]) calls tasks ->
  runAttachCalls calls earlier = Ok (earlier ++ tasks).
Proof.
  intros Hcalls. revert earlier.
  induction Hcalls as [|[data mediaType] task calls tasks Hcall _ IH];
    intros earlier; simpl; [by rewrite app_nil_r|].
  rewrite (attach_accumulates _ _ _ _ Hcall), IH. by rewrite <- app_assoc.
Qed.

(** Property X11. The attachments a callback makes are recorded one envelope per call of
    [attach], in the order of the calls, each under the open test case and
    step, and before the step-finished envelope. *)
Theorem attachments_recorded_in_call_order
    config onAfterStep tsf m pretty messages cid sid found psid resolved tasks :
  isTextTerminal config = true ->
  state m = StateStepStarted pretty messages cid sid ->
  resolveTestStep messages tsf = Ok found ->
  ts_pickleStepId (snd found) = Some psid ->
  resolvePickleStep messages (fst found) psid = Ok resolved ->
  Forall2 (fun call task => attach call.1 call.2 [] = Ok [task])
    (onAfterStep (afterStepOptions tsf resolved)) tasks ->
  let r := testStepFinishedHandler config (Some onAfterStep) tsf m in
  fst r = Ok true /\
  state (snd r) =
    StateStepFinished pretty
      (messages ++
       (if enabled (cfg_messages (resolve config))
        then map (recordedAttachment cid sid) tasks else []) ++
       [testStepFinishedEnvelope tsf]) cid.
Proof.
  intros Hterm Hstate Hfound Hpsid Hresolved Hcalls.
  destruct m as [st w]. simpl in Hstate. subst st.
  rewrite testStepFinishedHandler_spec by done.
  rewrite (stepAttachments_pickleStep _ _ _ _ _ _ Hfound Hpsid Hresolved).
  by rewrite (runAttachCalls_in_order _ _ _ Hcalls).
Qed.

(** ** The buffer *)

(** Property X6. No handler reorders or rewrites what the buffer holds. When an event
    finds a buffer and leaves one, the new buffer extends the old one; only
    the scenario data of a reload cut it back, to a prefix of the old one. *)
Theorem buffer_grows_or_is_cut config ev m before after :
  state_messages (state m) = Some before ->
  state_messages (state (snd (handle config ev m))) = Some after ->
  before `prefix_of` after \/
  ((exists data, ev = StaticScenarioDataReceived data) /\
   after `prefix_of` before).
Proof.
  destruct (isTextTerminal config) eqn:Hterm;
    [|rewrite handle_interactive by done; simpl; intros Hb Ha; rewrite Hb in Ha; injection Ha as <-; by left].
  destruct m as [st w].
  destruct ev as [spec|data|data|data|onAfterStep data|data|spec results|details|task];
    simpl.
  - unfold beforeSpecHandler. rewrite Hterm.
    destruct (isFeature spec), (enabled (cfg_messages (resolve config))),
      (cfg_pretty_enabled (resolve config)); simpl;
      try (simpl; intros Hb Ha; rewrite Hb in Ha; injection Ha as <-; by left).
    all: destruct st; run_monad; try done; intros [= ->] [= <-]; by left.
  - unfold specEnvelopesHandler. rewrite Hterm. simpl.
    destruct st as [| p | p ? | p ? ? | p buffer ? ? | p ? ? | p ? |];
      try destruct p; run_monad; rewrite ?emitAll_spec; simpl;
      try done; try (intros [= ->] [= <-]; by left).
    all: destruct (_ =? _)%Z; simpl; rewrite ?emitAll_spec; simpl;
      intros [= ->] [= <-]; [by left|right].
    all: split; [eauto|]. all: apply prefix_take.
  - unfold testCaseStartedHandler. rewrite Hterm. simpl.
    destruct st as [| p | p ? | p ? ? | p ? ? ? | p ? ? | p ? |];
      try destruct p; run_monad; try done; intros [= ->] [= <-]; left;
      (done || by apply prefix_app_r).
  - unfold testStepStartedHandler. rewrite Hterm. simpl.
    destruct st as [| p | p ? | p ? ? | p ? ? ? | p ? ? | p ? |];
      try destruct p; run_monad; try done; intros [= ->] [= <-]; left;
      (done || by apply prefix_app_r).
  - destruct st as [| p | p ? | p ? ? | p buffer cid sid | p ? ? | p ? |].
    all: try (unfold testStepFinishedHandler; rewrite Hterm; run_monad;
              try done; intros [= ->] [= <-]; by left).
    unfold bind. rewrite testStepFinishedHandler_spec by done.
    destruct (stepAttachments buffer onAfterStep data);
      destruct p; run_monad; intros [= ->] [= <-]; left;
      (done || by apply prefix_app_r).
  - unfold testCaseFinishedHandler. rewrite Hterm. simpl.
    destruct st as [| p | p ? | p ? ? | p ? ? ? | p ? ? | p ? |];
      try destruct p; run_monad; try done; intros [= ->] [= <-]; left;
      (done || by apply prefix_app_r).
  - unfold afterSpecHandler. rewrite Hterm.
    destruct (isFeature spec); simpl; [|simpl; intros Hb Ha; rewrite Hb in Ha; injection Ha as <-; by left].
    destruct (enabled (cfg_messages (resolve config)));
      destruct results as [run|]; [destruct (wasRemainingSkipped run)| | |].
    all: by destruct st as [| p | p ? | p ? ? | p ? ? ? | p ? ? | p ? |];
      try destruct p; run_monad.
  - unfold afterScreenshotHandler. rewrite Hterm.
    destruct (enabled (cfg_messages (resolve config))); simpl;
      [|simpl; intros Hb Ha; rewrite Hb in Ha; injection Ha as <-; by left].
    destruct st; run_monad; try done; try (intros [= ->] [= <-]; by left).
    destruct (screenshots w !! sd_path details); simpl;
      intros [= ->] [= <-]; left; (done || by apply prefix_app_r).
  - unfold createStringAttachmentHandler. rewrite Hterm.
    destruct (enabled (cfg_messages (resolve config))); simpl;
      [|simpl; intros Hb Ha; rewrite Hb in Ha; injection Ha as <-; by left].
    destruct st; run_monad; try done; intros [= ->] [= <-]; left;
      (done || by apply prefix_app_r).
Qed.

End Lifecycle.

(** ** The further properties on the sample data *)

Section OnSampleRuns.

#[local] Existing Instance Sample.imports.

Lemma interactive_mode_is_noop_witness :
  isTextTerminal Sample.configInteractive = false /\
  handleAll Sample.configInteractive Sample.oneScenario
    (Sample.machine StateInitial) = Sample.machine StateInitial.
Proof.
  split; [reflexivity|].
  exact (proj1 (proj2 (interactive_mode_is_noop Sample.configInteractive
                         Sample.oneScenario (Sample.machine StateInitial)
                         eq_refl))).
Defined.

Lemma reload_finds_open_case_witness :
  isTextTerminal Sample.config = true /\
  state (handleAll Sample.config SampleRun.untilStepOpen
           {| state := StateInitial; world := Sample.world0 |}) =
    Sample.stepOpen /\
  (let r := specEnvelopesHandler Sample.config Sample.reloadedData
              (handleAll Sample.config SampleRun.untilStepOpen
                 {| state := StateInitial; world := Sample.world0 |}) in
   exists before e started after,
     Sample.openBuffer = before ++ e :: after /\
     testCaseStarted e = Some started /\ tcs_id started = "tcs-1" /\
     Forall (fun e' => testCaseStarted e' = None) after /\
     fst r = Ok true /\
     state_messages (state (snd r)) = Some before).
Proof.
  split; [reflexivity|]. split; [reflexivity|].
  exact (reload_finds_open_case Sample.config SampleRun.untilStepOpen
           Sample.world0 Sample.reloadedData PrettyDisabled Sample.openBuffer
           "tcs-1" "step-1" eq_refl eq_refl).
Defined.

Lemma one_open_channel_witness :
  Forall (fun ch => ended ch = true) (channels SampleRun.quietWorld) /\
  allHandled Sample.configPretty SampleRun.untilStepOpen
    {| state := StateInitial; world := SampleRun.quietWorld |} /\
  oneOpenChannel
    (handleAll Sample.configPretty SampleRun.untilStepOpen
       {| state := StateInitial; world := SampleRun.quietWorld |}) /\
  state_pretty
    (state (handleAll Sample.configPretty SampleRun.untilStepOpen
              {| state := StateInitial; world := SampleRun.quietWorld |})) =
    Some (PrettyEnabled 1).
Proof.
  assert (Hended : Forall (fun ch => ended ch = true)
                     (channels SampleRun.quietWorld))
    by (by repeat constructor).
  assert (Hhandled : allHandled Sample.configPretty SampleRun.untilStepOpen
                       {| state := StateInitial; world := SampleRun.quietWorld |})
    by (by repeat split).
  split; [exact Hended|]. split; [exact Hhandled|]. split; [|reflexivity].
  exact (one_open_channel Sample.configPretty SampleRun.untilStepOpen
           SampleRun.quietWorld Hended Hhandled).
Defined.

Lemma nothing_written_before_spec_end_witness :
  Forall (fun ev => forall spec results, ev <> SpecFinished spec results)
    SampleRun.untilStepOpen /\
  files (world (handleAll Sample.config SampleRun.untilStepOpen
                  (Sample.machine StateInitial))) = files Sample.world0.
Proof.
  assert (H : Forall (fun ev => forall spec results, ev <> SpecFinished spec results)
                SampleRun.untilStepOpen)
    by (repeat constructor; intros spec results; discriminate).
  split; [exact H|].
  exact (nothing_written_before_spec_end Sample.config SampleRun.untilStepOpen
           (Sample.machine StateInitial) H).
Defined.

Lemma beforeRun_resets_only_the_log_witness :
  isTextTerminal Sample.config = true /\
  enabled (cfg_messages (resolve Sample.config)) = true /\
  files (world (snd (beforeRunHandler Sample.config
                       {| state := StateInitial; world := SampleRun.loggedWorld |}))) =
    <[messagesPath Sample.config := runHeader SampleRun.loggedWorld]>
      (files SampleRun.loggedWorld).
Proof.
  split; [reflexivity|]. split; [reflexivity|].
  exact (proj1 (proj2 (proj2
           (proj2 (beforeRun_resets_only_the_log Sample.config
                     {| state := StateInitial; world := SampleRun.loggedWorld |}
                     eq_refl) eq_refl)))).
Defined.

Lemma afterRun_without_log_is_noop_witness :
  isTextTerminal Sample.configReports = true /\
  files (world (Sample.machine StateAfterSpec))
    !! messagesPath Sample.configReports = None /\
  afterRunHandler Sample.configReports (Sample.machine StateAfterSpec) =
    (Ok tt, Sample.machine StateAfterSpec).
Proof.
  split; [reflexivity|]. split; [reflexivity|].
  exact (afterRun_without_log_is_noop Sample.configReports
           (Sample.machine StateAfterSpec) eq_refl (or_introl eq_refl)).
Defined.

Lemma log_round_trip_witness :
  Sample.scenarioData <> [] /\
  parseAll (splitLines (trim (records Sample.scenarioData))) =
    Ok Sample.scenarioData.
Proof.
  assert (H : Sample.scenarioData <> []) by discriminate.
  split; [exact H|].
  exact (proj1 (log_round_trip Sample.scenarioData []) H).
Defined.

Lemma afterRun_json_report_witness :
  isTextTerminal SampleRun.configJson = true /\
  enabled (cfg_json (resolve SampleRun.configJson)) = true /\
  enabled (cfg_html (resolve SampleRun.configJson)) = false /\
  jsonPath SampleRun.configJson <> messagesPath SampleRun.configJson /\
  files SampleRun.loggedWorld !! messagesPath SampleRun.configJson =
    Some (records Sample.scenarioData) /\
  (let r := afterRunHandler SampleRun.configJson
              {| state := StateAfterSpec; world := SampleRun.loggedWorld |} in
   fst r = Ok tt /\
   files (world (snd r)) !! jsonPath SampleRun.configJson = Some [Raw "[]"]) /\
  fst (afterRunHandler (imports := Sample.silentFormatter) SampleRun.configJson
         {| state := StateAfterSpec; world := SampleRun.loggedWorld |}) =
    Err TypeError.
Proof.
  assert (Hpath : jsonPath SampleRun.configJson <> messagesPath SampleRun.configJson)
    by (vm_compute; discriminate).
  split; [reflexivity|]. split; [reflexivity|]. split; [reflexivity|].
  split; [exact Hpath|]. split; [reflexivity|].
  split.
  - exact (proj2 (proj2 (afterRun_json_report SampleRun.configJson
                           {| state := StateAfterSpec; world := SampleRun.loggedWorld |}
                           Sample.scenarioData eq_refl eq_refl eq_refl Hpath eq_refl
                           (or_introl eq_refl)))).
  - exact (proj2 (proj2 (afterRun_json_report (imports := Sample.silentFormatter)
                           SampleRun.configJson
                           {| state := StateAfterSpec; world := SampleRun.loggedWorld |}
                           Sample.scenarioData eq_refl eq_refl eq_refl Hpath eq_refl
                           (or_introl eq_refl)))).
Defined.

Lemma empty_buffer_breaks_json_report_witness :
  isTextTerminal SampleRun.configJson = true /\
  isFeature Sample.feature = true /\
  wasRemainingSkipped Sample.passed = false /\
  Sample.scenarioData <> [] /\
  (let m := {| state := StateReceivedSpecEnvelopes PrettyDisabled [];
               world := SampleRun.loggedWorld |} in
   let flushed := snd (afterSpecHandler SampleRun.configJson Sample.feature
                         (Some Sample.passed) m) in
   fst (afterRunHandler SampleRun.configJson flushed) = Err SyntaxError).
Proof.
  assert (Hpath : jsonPath SampleRun.configJson <> messagesPath SampleRun.configJson)
    by (vm_compute; discriminate).
  assert (Hdata : Sample.scenarioData <> []) by discriminate.
  split; [reflexivity|]. split; [reflexivity|]. split; [reflexivity|].
  split; [exact Hdata|].
  exact (proj1 (proj2 (empty_buffer_breaks_json_report SampleRun.configJson
                         Sample.feature Sample.passed
                         {| state := StateReceivedSpecEnvelopes PrettyDisabled [];
                            world := SampleRun.loggedWorld |}
                         Sample.scenarioData eq_refl eq_refl eq_refl eq_refl Hpath
                         eq_refl eq_refl eq_refl Hdata))).
Defined.

Lemma missing_cross_reference_fails_witness :
  isTextTerminal Sample.config = true /\
  resolveTestStep Sample.openBuffer SampleRun.strayStepFinished =
    Err (createError "Expected to find a testCaseStarted") /\
  testStepFinishedHandler Sample.config (Some SampleRun.attachTwo)
    SampleRun.strayStepFinished (Sample.machine Sample.stepOpen) =
    (Err (createError "Expected to find a testCaseStarted"),
     Sample.machine Sample.stepOpen).
Proof.
  destruct (missing_cross_reference_fails Sample.config (Some SampleRun.attachTwo)
              SampleRun.strayStepFinished (Sample.machine Sample.stepOpen)
              Sample.openBuffer "tcs-1" "step-1" eq_refl eq_refl)
    as (Hfirst & Hfails & _).
  assert (Hnone : resolveTestStep Sample.openBuffer SampleRun.strayStepFinished =
                  Err (createError "Expected to find a testCaseStarted")).
  { apply Hfirst. repeat constructor; intros started [= <-]; discriminate. }
  split; [reflexivity|]. split; [exact Hnone|].
  exact (proj1 (Hfails _ Hnone)).
Defined.

Lemma hook_step_skips_callback_witness :
  isTextTerminal Sample.config = true /\
  resolveTestStep Sample.openBuffer SampleRun.hookStepFinished =
    Ok ("pickle-1", SampleRun.hookStep) /\
  (let r := testStepFinishedHandler Sample.config (Some SampleRun.attachTwo)
              SampleRun.hookStepFinished (Sample.machine Sample.stepOpen) in
   fst r = Ok true /\
   state (snd r) =
     StateStepFinished PrettyDisabled
       (Sample.openBuffer ++ [testStepFinishedEnvelope SampleRun.hookStepFinished])
       "tcs-1") /\
  resolveTestStep SampleRun.bareBuffer SampleRun.bareStepFinished =
    Ok ("pickle-3", SampleRun.bareStep) /\
  (let r := testStepFinishedHandler Sample.config (Some SampleRun.attachTwo)
              SampleRun.bareStepFinished
              (Sample.machine
                 (StateStepStarted PrettyDisabled SampleRun.bareBuffer
                    "tcs-3" "bare-step")) in
   fst r = Ok true /\
   state (snd r) =
     StateStepFinished PrettyDisabled
       (SampleRun.bareBuffer ++ [testStepFinishedEnvelope SampleRun.bareStepFinished])
       "tcs-3").
Proof.
  split; [reflexivity|]. split; [reflexivity|].
  split.
  { exact (hook_step_skips_callback Sample.config (Some SampleRun.attachTwo)
             SampleRun.hookStepFinished (Sample.machine Sample.stepOpen)
             PrettyDisabled Sample.openBuffer "tcs-1" "step-1"
             ("pickle-1", SampleRun.hookStep)
             eq_refl eq_refl eq_refl eq_refl eq_refl). }
  split; [reflexivity|].
  exact (hook_step_skips_callback Sample.config (Some SampleRun.attachTwo)
           SampleRun.bareStepFinished
           (Sample.machine
              (StateStepStarted PrettyDisabled SampleRun.bareBuffer
                 "tcs-3" "bare-step"))
           PrettyDisabled SampleRun.bareBuffer "tcs-3" "bare-step"
           ("pickle-3", SampleRun.bareStep)
           eq_refl eq_refl eq_refl eq_refl eq_refl).
Defined.

Lemma handled_event_follows_the_table_witness :
  isTextTerminal Sample.config = true /\
  passesGuards Sample.config (TestCaseStartedEvent Sample.started) = true /\
  fst (handle Sample.config (TestCaseStartedEvent Sample.started)
         (Sample.machine
            (StateReceivedSpecEnvelopes PrettyDisabled Sample.scenarioData))) =
    Ok tt /\
  state_name
    (state (snd (handle Sample.config (TestCaseStartedEvent Sample.started)
                   (Sample.machine
                      (StateReceivedSpecEnvelopes PrettyDisabled
                         Sample.scenarioData))))) = "test-started".
Proof.
  split; [reflexivity|]. split; [reflexivity|]. split; [reflexivity|].
  exact (proj2 (handled_event_follows_the_table Sample.config
                  (TestCaseStartedEvent Sample.started)
                  (Sample.machine
                     (StateReceivedSpecEnvelopes PrettyDisabled Sample.scenarioData))
                  eq_refl eq_refl eq_refl)).
Defined.

Lemma scenario_data_fill_the_buffer_witness :
  isTextTerminal Sample.configPretty = true /\
  (let r := specEnvelopesHandler Sample.configPretty Sample.scenarioData
              (Sample.liveMachine (StateBeforeSpec (PrettyEnabled 0))) in
   state (snd r) =
     StateReceivedSpecEnvelopes (PrettyEnabled 0) Sample.scenarioData /\
   channels (world (snd r)) =
     [{| received := Sample.scenarioData; ended := false |}]).
Proof.
  split; [reflexivity|].
  destruct (scenario_data_fill_the_buffer Sample.configPretty Sample.scenarioData
              (Sample.liveMachine (StateBeforeSpec (PrettyEnabled 0)))
              (PrettyEnabled 0) eq_refl eq_refl)
    as (_ & Hstate & _ & _ & Hchannels).
  split; [exact Hstate | exact Hchannels].
Defined.

Lemma attachments_recorded_in_call_order_witness :
  isTextTerminal Sample.config = true /\
  (let r := testStepFinishedHandler Sample.config (Some SampleRun.attachTwo)
              Sample.stepFinished (Sample.machine Sample.stepOpen) in
   fst r = Ok true /\
   state (snd r) =
     StateStepFinished PrettyDisabled
       (Sample.openBuffer ++
        [attachmentEnvelope
           {| att_testCaseStartedId := "tcs-1"; att_testStepId := "step-1";
              att_body := "seen"; att_mediaType := "text/plain";
              att_contentEncoding := IDENTITY |};
         attachmentEnvelope
           {| att_testCaseStartedId := "tcs-1"; att_testStepId := "step-1";
              att_body := "QUJD"; att_mediaType := "image/png";
              att_contentEncoding := BASE64 |}] ++
        [testStepFinishedEnvelope Sample.stepFinished]) "tcs-1").
Proof.
  split; [reflexivity|].
  apply (attachments_recorded_in_call_order Sample.config SampleRun.attachTwo
           Sample.stepFinished (Sample.machine Sample.stepOpen)
           PrettyDisabled Sample.openBuffer "tcs-1" "step-1"
           ("pickle-1", Sample.firstStep) "ps-1"
           (Sample.scenario, Sample.firstPickleStep, Sample.document)
           [{| csa_data := "seen"; csa_mediaType := "text/plain";
               csa_encoding := IDENTITY |};
            {| csa_data := "QUJD"; csa_mediaType := "image/png";
               csa_encoding := BASE64 |}]
           eq_refl eq_refl eq_refl eq_refl eq_refl).
  by repeat constructor.
Defined.

Lemma buffer_grows_or_is_cut_witness :
  (let m := Sample.machine Sample.stepOpen in
   state_messages (state m) = Some Sample.openBuffer /\
   state_messages
     (state (snd (handle Sample.config
                    (StaticScenarioDataReceived Sample.reloadedData) m))) =
     Some Sample.scenarioData /\
   Sample.scenarioData `prefix_of` Sample.openBuffer).
Proof.
  split; [reflexivity|]. split; [reflexivity|].
  destruct (buffer_grows_or_is_cut Sample.config
              (StaticScenarioDataReceived Sample.reloadedData)
              (Sample.machine Sample.stepOpen) Sample.openBuffer
              Sample.scenarioData eq_refl eq_refl) as [Hgrows|[_ Hcut]].
  - by eexists.
  - exact Hcut.
Defined.

End OnSampleRuns.
